(** * The App Engine datastore backend of djangae: value codec, entity mapper,
      unique-constraint cache and cursor shim

    A shallow embedding of [djangae/db/backends/appengine/base.py] and the
    properties its specification states about it.  The embedding follows the
    Python source function by function; Python objects are an inductive type
    of values, exceptions are an explicit error result, warnings are a log,
    dictionaries ([datastore.Entity], the side cache) are finite maps. *)

From Stdlib Require Import ZArith Ascii List Sorted Permutation Lia.
From stdpp Require Import gmap strings list fin_maps.

#[local] Set Warnings "-register-all".
#[local] Open Scope Z_scope.

(** ** Python objects *)

(** A [unicode] object is its list of code points; a [str] object is a
    Rocq [string], whose characters are the 8-bit bytes. *)
Definition ustring := list N.

(** [datetime.date]: the proleptic Gregorian ordinal of the day, as
    [date.toordinal()] numbers it. *)
Record date := Date { toordinal : Z }.

(** [datetime.time] without tzinfo (the only times Django saves): the
    microsecond of the day, [0 <= t_micro < 86400 * 10^6]. *)
Record time := Time { t_micro : Z }.

(** [datetime.datetime]: day ordinal and microsecond of the day of the wall
    clock, and, for an aware value, the UTC offset in microseconds. *)
Record datetime := Datetime { dt_day : Z; dt_micro : Z; dt_tzinfo : option Z }.

(** [decimal.Decimal] (finite values): sign, coefficient and exponent. *)
Record decimal := Dec { d_sign : bool; d_coeff : Z; d_exp : Z }.

(** A [basestring] as it is used for datastore names. *)
Inductive pystr :=
| PStr (s : string)
| PUni (u : ustring).

Inductive id_or_name :=
| Id (n : Z)
| Name (s : pystr).

(** [datastore_types.Key]: a kind and an integer id or a string name; the
    key of an entity that was never put has neither. *)
Record key := Key { key_kind : string; key_ident : option id_or_name }.

Inductive value :=
| VNone
| VBool (b : bool)
| VInt (n : Z)                  (* int *)
| VLong (n : Z)                 (* long *)
| VFloat (m e : Z)              (* float, the dyadic m * 2^e *)
| VStr (s : string)             (* str *)
| VUnicode (u : ustring)        (* unicode *)
| VText (u : ustring)           (* datastore_types.Text, a unicode subclass *)
| VBlob (s : string)            (* datastore_types.Blob, a str subclass *)
| VDate (d : date)
| VDatetime (dt : datetime)
| VTime (t : time)
| VDecimal (d : decimal)
| VList (l : list value)
| VKey (k : key).

(** Exceptions the modelled code raises. *)
Inductive exn :=
| IntegrityError (field_name : string)
| ValueError
| TypeError
| KeyError (k : string)
| AttributeError
| UnicodeDecodeError
| InvalidOperation
| FieldDoesNotExist
| BadArgumentError.

Inductive result (A : Type) :=
| Ok (a : A)
| Raise (e : exn).
Arguments Ok {A} a.
Arguments Raise {A} e.

#[global] Instance result_ret : MRet result := fun A a => Ok a.
#[global] Instance result_bind : MBind result := fun A B f m =>
  match m with Ok a => f a | Raise e => Raise e end.

Definition is_ok {A} (r : result A) : bool :=
  match r with Ok _ => true | Raise _ => false end.

(** The builtins the embedding leaves to the interpreter: [str.decode('utf-8')],
    [str(x)] (the ['%s'] conversion), [int(x)] and [float(x)]. *)
Class Python := {
  utf8_decode : string -> option ustring;
  py_str : value -> string;
  py_int : value -> result value;
  py_float : value -> result value
}.

(** [isinstance(v, str)], [isinstance(v, basestring)], [isinstance(v, int)],
    [isinstance(v, (int, long))]. *)
Definition as_str (v : value) : option string :=
  match v with VStr s | VBlob s => Some s | _ => None end.

Definition as_basestring (v : value) : option pystr :=
  match v with
  | VStr s | VBlob s => Some (PStr s)
  | VUnicode u | VText u => Some (PUni u)
  | _ => None
  end.

Definition bool_to_Z (b : bool) : Z := if b then 1 else 0.

Definition as_int (v : value) : option Z :=
  match v with VInt n => Some n | VBool b => Some (bool_to_Z b) | _ => None end.

Definition as_int_or_long (v : value) : option Z :=
  match v with
  | VInt n | VLong n => Some n
  | VBool b => Some (bool_to_Z b)
  | _ => None
  end.

(** [v is None]. *)
Definition is_none (v : value) : bool :=
  match v with VNone => true | _ => false end.

(** [len(s)] and the slices [s[:n]], [s[n:]]. *)
Fixpoint str_take (n : nat) (s : string) : string :=
  match n, s with
  | S n', String c s' => String c (str_take n' s')
  | _, _ => EmptyString
  end.

Fixpoint str_drop (n : nat) (s : string) : string :=
  match n, s with
  | S n', String _ s' => str_drop n' s'
  | _, _ => s
  end.

Definition pystr_len (s : pystr) : Z :=
  match s with
  | PStr s => Z.of_nat (String.length s)
  | PUni u => Z.of_nat (List.length u)
  end.

Definition pystr_take (n : nat) (s : pystr) : pystr :=
  match s with
  | PStr s => PStr (str_take n s)
  | PUni u => PUni (take n u)
  end.

Definition pystr_drop (n : nat) (s : pystr) : pystr :=
  match s with
  | PStr s => PStr (str_drop n s)
  | PUni u => PUni (drop n u)
  end.

Definition pystr_nonempty (s : pystr) : bool :=
  match s with
  | PStr EmptyString | PUni [] => false
  | _ => true
  end.

(** Slicing a [Text] or a [Blob] gives a plain [unicode] or [str]. *)
Definition pystr_value (s : pystr) : value :=
  match s with PStr s => VStr s | PUni u => VUnicode u end.

(** Truth value of an object, as [if v:] tests it (Python 2: a [time] at
    midnight is false). *)
Definition truthy (v : value) : bool :=
  match v with
  | VNone => false
  | VBool b => b
  | VInt n | VLong n => negb (n =? 0)
  | VFloat m _ => negb (m =? 0)
  | VStr s | VBlob s => pystr_nonempty (PStr s)
  | VUnicode u | VText u => pystr_nonempty (PUni u)
  | VDate _ | VDatetime _ | VKey _ => true
  | VTime t => negb (t_micro t =? 0)
  | VDecimal d => negb (d_coeff d =? 0)
  | VList l => match l with [] => false | _ => true end
  end.

(** ** [datetime] arithmetic *)

Definition day_micro : Z := 86400 * 1000000.

(** Day ordinal of 1970-01-01. *)
Definition epoch_day : Z := 719163.

(** [datetime.combine(d, t)]: the day of [d], the time of day of [t]. *)
Definition combine (day : Z) (t : time) : datetime :=
  Datetime day (t_micro t) None.

(** The instant of a wall clock reading at a UTC offset. *)
Definition utc_instant (dt : datetime) : Z :=
  dt_day dt * day_micro + dt_micro dt - default 0 (dt_tzinfo dt).

(** [dt.astimezone(utc).replace(tzinfo=None)]. *)
Definition to_naive_utc (dt : datetime) : datetime :=
  let i := utc_instant dt in
  Datetime (i / day_micro) (i mod day_micro) None.

(** [datetime.fromtimestamp(float(n) / 1000000.0)], in a process whose
    local time is UTC as on App Engine; the division is taken exactly. *)
Definition fromtimestamp_micro (n : Z) : datetime :=
  Datetime (epoch_day + n / day_micro) (n mod day_micro) None.

(** [timezone.is_naive(value)] and [timezone.is_aware(value)] read
    [value.tzinfo]. *)
Definition is_naive (v : value) : result bool :=
  match v with
  | VDatetime dt => Ok (bool_decide (dt_tzinfo dt = None))
  | VTime _ => Ok true
  | _ => Raise AttributeError
  end.

(** ** [decimal.Decimal] *)



Definition digit_char (d : Z) : N := Z.to_N (48 + d).

Definition digit_val (c : N) : option Z :=
  if ((48 <=? c) && (c <=? 57))%N then Some (Z.of_N c - 48) else None.

(** The decimal digits of [n >= 0] without leading zeros. *)
Fixpoint digits_fuel (k : nat) (n : Z) : ustring :=
  match k with
  | O => [digit_char (n mod 10)]
  | S k' =>
      if n <? 10 then [digit_char n]
      else digits_fuel k' (n / 10) ++ [digit_char (n mod 10)]
  end.

Definition int_digits (n : Z) : ustring :=
  digits_fuel (Z.to_nat (Z.log2 n)) n.

(** Exactly [w] digits of [n], most significant first. *)
Fixpoint fixed_digits (w : nat) (n : Z) : ustring :=
  match w with
  | O => []
  | S w' => fixed_digits w' (n / 10) ++ [digit_char (n mod 10)]
  end.

Definition zfill (w : nat) (l : ustring) : ustring :=
  repeat 48%N (w - List.length l) ++ l.

Fixpoint parse_digits (acc : Z) (l : ustring) : option Z :=
  match l with
  | [] => Some acc
  | c :: l' =>
      match digit_val c with
      | Some d => parse_digits (10 * acc + d) l'
      | None => None
      end
  end.

Definition point : N := 46%N.

(** Splits at the first decimal point. *)
Fixpoint split_point (l : ustring) : ustring * option ustring :=
  match l with
  | [] => ([], None)
  | c :: l' =>
      if (c =? point)%N then ([], Some l')
      else let '(a, b) := split_point l' in (c :: a, b)
  end.

(** A leading minus or plus sign. *)
Definition strip_sign (l : ustring) : bool * ustring :=
  match l with
  | c :: r =>
      if (c =? 45)%N then (true, r)
      else if (c =? 43)%N then (false, r)
      else (false, l)
  | [] => (false, l)
  end.

(** [decimal.Decimal(s)] for the fixed-point syntax
    [[+-]digits[.digits]]; exponents, [NaN] and [Infinity] are outside the
    embedding and read as malformed. *)
Definition Decimal_of_chars (l : ustring) : option decimal :=
  let '(sign, body) := strip_sign l in
  let '(ip, fp) := split_point body in
  let fp' := default [] fp in
  match ip ++ fp' with
  | [] => None
  | ds =>
      match parse_digits 0 ds with
      | Some n => Some (Dec sign n (- Z.of_nat (List.length fp')))
      | None => None
      end
  end.

Definition chars_of_str (s : string) : ustring :=
  map N_of_ascii (String.list_ascii_of_string s).

(** [decimal.Decimal(v)]. *)
Definition Decimal_new (v : value) : result decimal :=
  match v with
  | VDecimal d => Ok d
  | VInt n | VLong n => Ok (Dec (n <? 0) (Z.abs n) 0)
  | VBool b => Ok (Dec false (bool_to_Z b) 0)
  | VFloat m e =>
      if 0 <=? e then Ok (Dec (m <? 0) (Z.abs m * 2 ^ e) 0)
      else Ok (Dec (m <? 0) (Z.abs m * 5 ^ (- e)) e)
  | VStr s | VBlob s =>
      match Decimal_of_chars (chars_of_str s) with
      | Some d => Ok d
      | None => Raise InvalidOperation
      end
  | VUnicode u | VText u =>
      match Decimal_of_chars u with
      | Some d => Ok d
      | None => Raise InvalidOperation
      end
  | _ => Raise TypeError
  end.

(** Rounds [c / p] to the nearest integer, ties to even. *)
Definition div_half_even (c p : Z) : Z :=
  let q := c / p in
  let r := c mod p in
  if (p <? 2 * r) || ((2 * r =? p) && Z.odd q) then q + 1 else q.

(** The magnitude of [d] in units of [10^-dp]. *)
Definition quantize (d : decimal) (dp : Z) : Z :=
  let s := d_exp d + dp in
  if 0 <=? s then d_coeff d * 10 ^ s
  else div_half_even (d_coeff d) (10 ^ (- s)).

(** Modelled from the spec: [djangae.db.utils.decimal_to_string], which is
    not among the sources.  The spec has a decimal "serialized as a
    fixed-width, lexicographically-sortable string derived from (value,
    max_digits, decimal_places)": a minus sign for a signed value, the
    integer part padded with zeros to [max_digits - decimal_places] digits,
    and [decimal_places] digits after the point.  The spec does not say how
    a value with more decimal places is cut; it is rounded half-even here. *)
Definition decimal_to_string (d : decimal) (max_digits decimal_places : Z)
  : ustring :=
  let n := quantize d decimal_places in
  let unit := 10 ^ decimal_places in
  (if d_sign d then [45%N] else []) ++
  zfill (Z.to_nat (max_digits - decimal_places)) (int_digits (n / unit)) ++
  (if 0 <? decimal_places
   then point :: fixed_digits (Z.to_nat decimal_places) (n mod unit)
   else []).


(** ** Fields and the type table *)

(** A Django field descriptor: the attributes the backend reads.  [f_model]
    names the class of [field.model]; [pre_save] and [get_db_prep_save] are
    the field's own (Django) methods, the first reading the attributes of
    the instance. *)
Record field := Field {
  f_name : string;
  attname : string;
  column : string;
  null : bool;
  primary_key : bool;
  unique : bool;
  f_model : string;
  class_name : string;
  internal_type : string;
  max_digits : Z;
  decimal_places : Z;
  pre_save : gmap string value -> bool -> value;
  get_db_prep_save : value -> value
}.

(** [settings] of the deployment. *)
Record Settings := {
  USE_TZ : bool;
  COMPLETE_FLUSH_WHILE_TESTING : bool
}.

(** [DatabaseCreation.data_types]. *)
Definition data_types : gmap string string :=
  list_to_map [
    ("AutoField", "key");
    ("RelatedAutoField", "key");
    ("ForeignKey", "key");
    ("OneToOneField", "key");
    ("ManyToManyField", "key");
    ("BigIntegerField", "long");
    ("BooleanField", "bool");
    ("CharField", "string");
    ("CommaSeparatedIntegerField", "string");
    ("DateField", "date");
    ("DateTimeField", "datetime");
    ("DecimalField", "decimal");
    ("EmailField", "string");
    ("FileField", "string");
    ("FilePathField", "string");
    ("FloatField", "float");
    ("ImageField", "string");
    ("IntegerField", "integer");
    ("IPAddressField", "string");
    ("NullBooleanField", "bool");
    ("PositiveIntegerField", "integer");
    ("PositiveSmallIntegerField", "integer");
    ("SlugField", "string");
    ("SmallIntegerField", "integer");
    ("TimeField", "time");
    ("URLField", "string");
    ("AbstractIterableField", "list");
    ("ListField", "list");
    ("RawField", "raw");
    ("BlobField", "bytes");
    ("TextField", "text");
    ("XMLField", "text");
    ("SetField", "list");
    ("DictField", "bytes");
    ("EmbeddedModelField", "bytes")
  ].

(** [DatabaseCreation.db_type]. *)
Definition db_type (f : field) : result string :=
  match data_types !! class_name f with
  | Some t => Ok t
  | None => Raise (KeyError (class_name f))
  end.

(** ** Value codec: [DatabaseOperations] *)

Definition is_ascii (s : string) : bool :=
  forallb (fun c => (c <? 128)%N) (chars_of_str s).

(** [datastore_types.Text(arg)]: unicode is taken as it is, a [str] is
    decoded as ASCII, anything else is a [TypeError]. *)
Definition Text_new (v : value) : result value :=
  match v with
  | VUnicode u | VText u => Ok (VText u)
  | VStr s | VBlob s =>
      if is_ascii s then Ok (VText (chars_of_str s))
      else Raise UnicodeDecodeError
  | _ => Raise TypeError
  end.

(** [datastore_types.Blob(arg)]: only a [str] is accepted. *)
Definition Blob_new (v : value) : result value :=
  match v with
  | VStr s | VBlob s => Ok (VBlob s)
  | _ => Raise TypeError
  end.

(** Modelled from the spec: [djangae.db.utils.make_timezone_naive], which is
    not among the sources.  The spec has date, time and datetime values
    "normalized to a timezone-naive instant before storage": an aware
    datetime is taken to UTC and loses its tzinfo, a naive value stays. *)
Definition make_timezone_naive (v : value) : result value :=
  match v with
  | VNone => Ok VNone
  | VDatetime dt =>
      match dt_tzinfo dt with
      | Some _ => Ok (VDatetime (to_naive_utc dt))
      | None => Ok v
      end
  | VTime _ => Ok v
  | _ => Raise AttributeError
  end.

Definition value_to_db_datetime (v : value) : result value :=
  make_timezone_naive v.

Definition value_to_db_date (v : value) : result value :=
  match v with
  | VNone => Ok VNone
  | VDate d => Ok (VDatetime (combine (toordinal d) (Time 0)))
  | VDatetime dt => Ok (VDatetime (combine (dt_day dt) (Time 0)))
  | _ => Raise TypeError
  end.

Definition value_to_db_time (v : value) : result value :=
  match v with
  | VNone => Ok VNone
  | _ =>
      v' ← make_timezone_naive v;
      match v' with
      | VTime t => Ok (VDatetime (combine epoch_day t))
      | _ => Raise TypeError
      end
  end.

Definition value_to_db_decimal (v : value) (max_digits decimal_places : Z)
  : result value :=
  match v with
  | VDecimal d => Ok (VUnicode (decimal_to_string d max_digits decimal_places))
  | _ => Ok v
  end.

(** The test [settings.USE_TZ and timezone.is_naive(value)] followed by
    [value.replace(tzinfo=timezone.utc)]; [value] is not [None].  The
    embedding has no aware times, so a time stays as it is:
    [value_from_db_time] goes on to [value.time()], which no time has, and
    [value_from_db_datetime] is handed datetimes. *)
Definition attach_utc (st : Settings) (v : value) : result value :=
  if USE_TZ st then
    n ← is_naive v;
    if n : bool then
      match v with
      | VDatetime dt => Ok (VDatetime (Datetime (dt_day dt) (dt_micro dt) (Some 0)))
      | _ => Ok v
      end
    else Ok v
  else Ok v.

Definition value_from_db_datetime (st : Settings) (v : value) : result value :=
  let v :=
    match as_int_or_long v with
    | Some n => VDatetime (fromtimestamp_micro n)
    | None => v
    end in
  match v with
  | VNone => Ok VNone
  | _ => attach_utc st v
  end.

Definition value_from_db_date (v : value) : result value :=
  let v :=
    match as_int_or_long v with
    | Some n => VDatetime (fromtimestamp_micro n)
    | None => v
    end in
  match v with
  | VDatetime dt => Ok (VDate (Date (dt_day dt)))
  | _ => Raise AttributeError
  end.

Definition value_from_db_time (st : Settings) (v : value) : result value :=
  let v :=
    match as_int_or_long v with
    | Some n => VTime (Time (dt_micro (fromtimestamp_micro n)))
    | None => v
    end in
  v ← match v with
      | VNone => Ok VNone
      | _ => attach_utc st v
      end;
  match v with
  | VDatetime dt => Ok (VTime (Time (dt_micro dt)))
  | _ => Raise AttributeError
  end.

Definition value_from_db_decimal (v : value) : result value :=
  if truthy v then d ← Decimal_new v; Ok (VDecimal d) else Ok v.

Definition str_endswith (s suffix : string) : bool :=
  let n := String.length s in
  let k := String.length suffix in
  (k <=? n)%nat && String.eqb (str_drop (n - k) s) suffix.

Section Codec.
Context `{Python}.

(** [s.decode('utf-8')]. *)
Definition decode (s : string) : result value :=
  match utf8_decode s with
  | Some u => Ok (VUnicode u)
  | None => Raise UnicodeDecodeError
  end.

(** Django's [BaseDatabaseOperations.convert_values], which the backend
    calls first. *)
Definition base_convert_values (v : value) (f : option field) : result value :=
  match v, f with
  | VNone, _ | _, None => Ok v
  | _, Some f =>
      let internal_type := internal_type f in
      if String.eqb internal_type "FloatField" then py_float v
      else if str_endswith internal_type "IntegerField"
              || String.eqb internal_type "AutoField" then py_int v
      else Ok v
  end.

(** [db_type] of a field that may be [None]. *)
Definition db_type_of (f : option field) : result string :=
  match f with
  | Some f => db_type f
  | None => Raise (KeyError "NoneType")
  end.

Definition convert_values (st : Settings) (v : value) (f : option field)
  : result value :=
  v ← base_convert_values v f;
  t ← db_type_of f;
  if String.eqb t "string" && bool_decide (is_Some (as_str v)) then
    match as_str v with Some s => decode s | None => Ok v end
  else if String.eqb t "datetime" then value_from_db_datetime st v
  else if String.eqb t "date" then value_from_db_date v
  else if String.eqb t "time" then value_from_db_time st v
  else if String.eqb t "decimal" then value_from_db_decimal v
  else Ok v.

Definition value_for_db (v : value) (f : field) : result value :=
  match v with
  | VNone => Ok VNone
  | _ =>
      t ← db_type f;
      if String.eqb t "string" || String.eqb t "text" then
        v ← match as_str v with Some s => decode s | None => Ok v end;
        if String.eqb t "text" then Text_new v else Ok v
      else if String.eqb t "bytes" then Blob_new v
      else if String.eqb t "date" then value_to_db_date v
      else if String.eqb t "datetime" then value_to_db_datetime v
      else if String.eqb t "time" then value_to_db_time v
      else if String.eqb t "decimal" then
        value_to_db_decimal v (max_digits f) (decimal_places f)
      else Ok v
  end.
End Codec.

(** ** Python equality *)





(** Numbers as dyadics [m * 2^e]. *)
Definition as_dyadic (v : value) : option (Z * Z) :=
  match v with
  | VFloat m e => Some (m, e)
  | _ => match as_int_or_long v with Some n => Some (n, 0) | None => None end
  end.



(** ** Models, instances and entities *)

(** [RelatedObject]: the parents of the model that points here
    ([obj.model._meta.parents]) and the accessor name. *)
Record related (M : Type) := Related {
  ro_parents : list M;
  var_name : string
}.
Arguments Related {M} _ _.
Arguments ro_parents {M} _.
Arguments var_name {M} _.

(** A model class, through its [_meta]: [parents] lists the keys of
    [_meta.parents], [parent_list] is [_meta.get_parent_list()],
    [unique_together] holds field names. *)
Inductive model := Model {
  m_name : string;
  app_label : string;
  db_table : string;
  abstract : bool;
  parents : list model;
  parent_list : list model;
  meta_fields : list field;
  pk_column : string;
  unique_together : list (list string);
  related_objects : list (related model)
}.

(** Identity of model classes. *)
Definition model_eqb (a b : model) : bool := String.eqb (m_name a) (m_name b).

(** A model instance: its attributes, [_state.adding], and for each
    related accessor that is populated the [_meta.fields] of the object it
    returns (an accessor that is not there raises [DoesNotExist]). *)
Record instance := Instance {
  attrs : gmap string value;
  adding : bool;
  related_fields : gmap string (list field)
}.

(** [datastore.Entity]: a key and a dictionary of properties; what the SDK
    itself checks of kinds, names and property values is not part of the
    embedding. *)
Record entity := Entity {
  e_key : key;
  e_props : gmap string value
}.

(** [key.id_or_name()]. *)
Definition id_or_name_value (k : key) : value :=
  match key_ident k with
  | Some (Id n) => VInt n
  | Some (Name s) => pystr_value s
  | None => VNone
  end.

(** [Key.from_path(kind, id_or_name)]; the SDK's own validation of the
    name is not part of the embedding. *)
Definition Key_from_path (kind : string) (v : value) : result key :=
  match as_int_or_long v with
  | Some n => Ok (Key kind (Some (Id n)))
  | None =>
      match as_basestring v with
      | Some s => Ok (Key kind (Some (Name s)))
      | None => Raise BadArgumentError
      end
  end.

(** The special-index registry of [djangae.indexing], which is not among the
    sources: the index names registered for a column of a model, and the
    indexer of each name. *)
Record indexer := Indexer {
  indexed_column_name : string -> string;
  prep_value_for_database : value -> value
}.

Record Indexing := {
  special_indexes_for_column : model -> string -> list string;
  REQUIRES_SPECIAL_INDEXES : gmap string indexer
}.

(** Effects: the warnings a call emits, and the calls it makes on the side
    cache. *)
Inductive warning := RuntimeWarning (msg : string).

Definition truncation_warning : warning :=
  RuntimeWarning
    "Truncating primary key that is over 500 characters. THIS IS AN ERROR IN YOUR PROGRAM.".

Inductive cache_op :=
| CacheSet (k : string) (e : entity) (timeout : Z)
| CacheDelete (k : string).

Definition op_key (o : cache_op) : string :=
  match o with CacheSet k _ _ | CacheDelete k => k end.

(** The side cache: the entry and its timeout under each key. *)
Definition run_cache_op (c : gmap string (entity * Z)) (o : cache_op)
  : gmap string (entity * Z) :=
  match o with
  | CacheSet k e t => <[k := (e, t)]> c
  | CacheDelete k => delete k c
  end.

Definition run_cache_ops (ops : list cache_op) (c : gmap string (entity * Z))
  : gmap string (entity * Z) :=
  foldl run_cache_op c ops.

(** ** Kinds and unique keys *)

Definition DEFAULT_CACHE_TIMEOUT : Z := 10.

(** The [for ... break] of [get_datastore_kind]: the first parent that has
    no parents of its own and is not abstract. *)
Fixpoint first_root_table (ps : list model) (db_table0 : string) : string :=
  match ps with
  | [] => db_table0
  | parent :: ps' =>
      match parents parent, abstract parent with
      | [], false => db_table parent
      | _, _ => first_root_table ps' db_table0
      end
  end.

Definition get_datastore_kind (m : model) : string :=
  first_root_table (parents m) (db_table m).

(** Django's [_meta.get_field(name)]. *)
Definition get_field (m : model) (name : string) : result field :=
  match List.find (fun f => String.eqb (f_name f) name) (meta_fields m) with
  | Some f => Ok f
  | None => Raise FieldDoesNotExist
  end.

(** Runs a fallible function over a list, left to right. *)
Fixpoint map_result {A B} (f : A -> result B) (l : list A) : result (list B) :=
  match l with
  | [] => Ok []
  | x :: l' => y ← f x; ys ← map_result f l'; Ok (y :: ys)
  end.

Definition get_uniques_from_model (m : model) : result (list (list string)) :=
  uniques ← map_result
    (fun x => map_result (fun y => f ← get_field m y; Ok (column f)) x)
    (unique_together m);
  Ok (uniques ++ map (fun x => [column x]) (filter (fun x => unique x = true) (meta_fields m))).

(** [sorted(l, key=lambda x: x[0])]: a stable sort on the field names, in
    the byte order Python compares [str] objects by. *)
Fixpoint insert_by_key {A} (x : string * A) (l : list (string * A))
  : list (string * A) :=
  match l with
  | [] => [x]
  | y :: l' =>
      if String.leb (fst x) (fst y) then x :: y :: l'
      else y :: insert_by_key x l'
  end.

Definition sorted_by_key {A} (l : list (string * A)) : list (string * A) :=
  foldr insert_by_key [] l.

Section UniqueCache.
Context `{Python}.

Definition generate_unique_key (m : model)
    (fields_and_values : list (string * value)) : string :=
  let fields_and_values := sorted_by_key fields_and_values in
  let key := app_label m +:+ "." +:+ get_datastore_kind m +:+ "|" in
  key +:+ String.concat "|"
    (map (fun '(field, value) => field +:+ ":" +:+ py_str value)
         fields_and_values).

(** The value a unique column contributes to the key: the assigned
    identity for a primary key that is not a property of the entity, the
    property otherwise. *)
Definition key_part (m : model) (e : entity) (x : string)
  : result (string * value) :=
  if String.eqb x (pk_column m) && negb (bool_decide (is_Some (e_props e !! x)))
  then Ok (x, id_or_name_value (e_key e))
  else match e_props e !! x with
       | Some v => Ok (x, v)
       | None => Raise (KeyError x)
       end.

Definition unique_key (m : model) (e : entity) (fields : list string)
  : result string :=
  key_parts ← map_result (key_part m e) fields;
  Ok (generate_unique_key m key_parts).

(** [cache_entity]: all keys are computed before the first [cache.set]. *)
Definition cache_entity (m : model) (e : entity)
  : list cache_op * option exn :=
  match
    unique_combinations ← get_uniques_from_model m;
    map_result (unique_key m e) unique_combinations
  with
  | Ok unique_keys =>
      (map (fun key => CacheSet key e DEFAULT_CACHE_TIMEOUT) unique_keys, None)
  | Raise ex => ([], Some ex)
  end.

(** [uncache_entity]: each key is deleted as soon as it is computed. *)
Fixpoint uncache_loop (m : model) (e : entity)
    (unique_combinations : list (list string)) : list cache_op * option exn :=
  match unique_combinations with
  | [] => ([], None)
  | fields :: rest =>
      match unique_key m e fields with
      | Ok key =>
          let '(ops, ex) := uncache_loop m e rest in
          (CacheDelete key :: ops, ex)
      | Raise ex => ([], Some ex)
      end
  end.

Definition uncache_entity (m : model) (e : entity)
  : list cache_op * option exn :=
  match get_uniques_from_model m with
  | Ok unique_combinations => uncache_loop m e unique_combinations
  | Raise ex => ([], Some ex)
  end.
End UniqueCache.

(** ** Entity mapper *)

Section Mapper.
Context `{Python}.

(** [getattr(instance, name)]. *)
Definition getattr (i : instance) (name : string) : result value :=
  match attrs i !! name with
  | Some v => Ok v
  | None => Raise AttributeError
  end.

Definition get_prepared_db_value (i : instance) (f : field) (raw : bool)
  : result value :=
  value ← (if raw then getattr i (attname f)
           else Ok (pre_save f (attrs i) (adding i)));
  let value := get_db_prep_save f value in
  value_for_db value f.

(** The nested [value_from_instance]; [inheritance_root] is the variable
    of the enclosing call as it stands when the fields are read. *)
Definition value_from_instance (inheritance_root : model) (raw : bool)
    (i : instance) (f : field) : result (value * bool) :=
  value ← get_prepared_db_value i f raw;
  if negb (null f) && negb (primary_key f) && is_none value
  then Raise (IntegrityError (f_name f))
  else Ok (value, primary_key f && String.eqb (f_model f) (m_name inheritance_root)).

Definition concrete (ms : list model) : list model :=
  filter (fun x => abstract x = false) ms.

Definition uses_inheritance (m : model) : bool :=
  match concrete (parent_list m) with [] => false | _ => true end.

(** [classes] after the walk over the parent list. *)
Definition classes (m : model) : list string :=
  db_table m :: map db_table (parent_list m).

(** [inheritance_root] after the walk: the last parent without parents. *)
Definition inheritance_root (m : model) : model :=
  if uses_inheritance m then
    foldl (fun root parent =>
             match parents parent with [] => parent | _ => root end)
          m (parent_list m)
  else m.

(** The fields of the children attached to the instance. *)
Definition child_fields (m : model) (i : instance) : list field :=
  flat_map
    (fun obj =>
       if existsb (model_eqb m) (concrete (ro_parents obj)) then
         match related_fields i !! var_name obj with
         | Some fs => fs
         | None => []
         end
       else [])
    (related_objects m).

(** [fields] as the loop over the fields finds it: the caller's list,
    which the function extends in place. *)
Definition mapped_fields (m : model) (fields : list field) (i : instance)
  : list field :=
  fields
  ++ (if uses_inheritance m then flat_map meta_fields (parent_list m) else [])
  ++ child_fields m i.

(** The special-index columns of one field. *)
Fixpoint add_special_indexes (ix : Indexing) (column : string) (v : value)
    (indexes : list string) (field_values : gmap string value)
  : result (gmap string value) :=
  match indexes with
  | [] => Ok field_values
  | index :: rest =>
      match REQUIRES_SPECIAL_INDEXES ix !! index with
      | Some indexer =>
          add_special_indexes ix column v rest
            (<[indexed_column_name indexer column :=
                 prep_value_for_database indexer v]> field_values)
      | None => Raise (KeyError index)
      end
  end.

(** The loop over the fields, on [(field_values, primary_key)]. *)
Fixpoint fields_loop (ix : Indexing) (m root : model) (raw : bool)
    (i : instance) (fs : list field)
    (st : gmap string value * value) : result (gmap string value * value) :=
  match fs with
  | [] => Ok st
  | f :: rest =>
      '(value, is_primary_key) ← value_from_instance root raw i f;
      let '(field_values, primary_key) := st in
      let '(field_values, primary_key) :=
        if is_primary_key : bool then (field_values, value)
        else (<[column f := value]> field_values, primary_key) in
      field_values ← add_special_indexes ix (column f) value
        (special_indexes_for_column ix m (column f)) field_values;
      fields_loop ix m root raw i rest (field_values, primary_key)
  end.

(** The identity the key is built with: [kwargs], and the warning. *)
Definition entity_kwargs (primary_key : value)
  : list warning * result (option id_or_name) :=
  if truthy primary_key then
    match as_int primary_key with
    | Some n => ([], Ok (Some (Id n)))
    | None =>
        match as_basestring primary_key with
        | Some s =>
            if 500 <=? pystr_len s
            then ([truncation_warning], Ok (Some (Name (pystr_take 500 s))))
            else ([], Ok (Some (Name s)))
        | None => ([], Raise ValueError)
        end
    end
  else ([], Ok None).

(** The end of [django_instance_to_entity]: the entity is created under
    the datastore kind with the identity of [kwargs], takes the field
    values and, under inheritance, the list of classes.  The checks of the
    SDK in [datastore.Entity(...)] and [entity.update(...)] (the length of a
    name in bytes, the values of the properties) are not part of the
    embedding: an [Ok] of [make_entity] says that the mapper's own code has
    raised nothing. *)
Definition make_entity (m : model) (field_values : gmap string value)
    (primary_key : value) : list warning * result entity :=
  let db_table := get_datastore_kind m in
  match entity_kwargs primary_key with
  | (ws, Raise ex) => (ws, Raise ex)
  | (ws, Ok kwargs) =>
      (* entity.update(field_values) on the new, empty entity *)
      let props := field_values in
      let props :=
        if uses_inheritance m
        then <["class" := VList (map VStr (classes m))]> props
        else props in
      (ws, Ok (Entity (Key db_table kwargs) props))
  end.

Definition django_instance_to_entity (ix : Indexing) (m : model)
    (fields : list field) (raw : bool) (i : instance)
  : list warning * result entity :=
  match fields_loop ix m (inheritance_root m) raw i (mapped_fields m fields i)
          (∅, VNone) with
  | Raise ex => ([], Raise ex)
  | Ok (field_values, primary_key) => make_entity m field_values primary_key
  end.
End Mapper.

(** ** Primary-key lookups and flush *)

Record FlushCommand := { fc_table : string }.

Section Operations.
Context `{Python}.

Definition prep_lookup_key (m : model) (v : value) (f : field)
  : list warning * result key :=
  match as_basestring v with
  | Some s =>
      let value := pystr_take 500 s in
      let left := pystr_drop 500 value in
      (if pystr_nonempty left then [truncation_warning] else [],
       Key_from_path (get_datastore_kind m) (pystr_value value))
  | None => ([], Key_from_path (get_datastore_kind m) v)
  end.

Definition prep_lookup_decimal (m : model) (v : value) (f : field)
  : result value :=
  value_to_db_decimal v (max_digits f) (decimal_places f).

Definition prep_lookup_value (m : model) (v : value) (f : field)
  : list warning * result value :=
  if primary_key f then
    let '(ws, k) := prep_lookup_key m v f in
    (ws, k ← k; Ok (VKey k))
  else
    match db_type f with
    | Raise ex => ([], Raise ex)
    | Ok t =>
        if String.eqb t "decimal" then ([], prep_lookup_decimal m v f)
        else ([], Ok v)
    end.

(** [sql_flush]: [argv] is [sys.argv] and [kinds] what
    [metadata.get_kinds()] returns. *)
Definition sql_flush (st : Settings) (argv kinds tables : list string)
  : list FlushCommand :=
  let tables :=
    if COMPLETE_FLUSH_WHILE_TESTING st then
      if existsb (String.eqb "test") argv then kinds else tables
    else tables in
  map (fun table => {| fc_table := table |}) tables.
End Operations.

(** ** Cursor *)

(** What [SelectCommand.results] holds: nothing before the command ran, an
    [int] for an aggregate, the store's iterator (the records still to
    come) otherwise. *)
Inductive results :=
| ResNone
| ResCount (n : Z)
| ResIter (pending : list entity).

(** [SelectCommand] (in [commands.py], not among the sources), as the
    cursor reads it. *)
Record SelectCommand := {
  sc_results : results;
  queried_fields : list string;
  sc_model : model;
  field_conversions : gmap string (value -> value)
}.

Record Cursor := {
  returned_ids : list key;
  rowcount : Z;
  last_select_command : option SelectCommand
}.

(** A fetched row: the tuple of an aggregate, or the list of a record. *)
Inductive row :=
| RowTuple (vs : list value)
| RowList (vs : list value).

(** Modelled from the spec: [commands.get_field_from_column], which is not
    among the sources; the spec has the cursor "look up the declared field
    for that column". *)
Definition get_field_from_column (m : model) (col : string) : option field :=
  List.find (fun f => String.eqb (column f) col) (meta_fields m).

(** Modelled from the spec: [SelectCommand.next_result], which is not among
    the sources: "a lazy, forward-only, non-restartable sequence of native
    records", whose end is signalled ([None] here stands for
    [StopIteration]). *)
Definition next_result (sc : SelectCommand)
  : result (option entity * SelectCommand) :=
  match sc_results sc with
  | ResIter (e :: rest) =>
      Ok (Some e, {| sc_results := ResIter rest;
                     queried_fields := queried_fields sc;
                     sc_model := sc_model sc;
                     field_conversions := field_conversions sc |})
  | ResIter [] => Ok (None, sc)
  | _ => Raise AttributeError
  end.

(** [not results]. *)
Definition results_falsy (r : results) : bool :=
  match r with
  | ResNone => true
  | ResCount n => n =? 0
  | ResIter _ => false
  end.

Section CursorOps.
Context `{Python}.

(** The loop of [fetchone] over the queried columns: [returned_ids] as
    the loop leaves it, also when a conversion raises, and the row. *)
Fixpoint build_row (st : Settings) (sc : SelectCommand) (e : entity)
    (cols : list string) (ids : list key) (vs : list value)
  : list key * result (list value) :=
  match cols with
  | [] => (ids, Ok vs)
  | col :: rest =>
      if String.eqb col "__key__" then
        build_row st sc e rest
          (ids ++ [e_key e]) (vs ++ [id_or_name_value (e_key e)])
      else
        let field := get_field_from_column (sc_model sc) col in
        match convert_values st (default VNone (e_props e !! col)) field with
        | Raise ex => (ids, Raise ex)
        | Ok value =>
            let value :=
              match field_conversions sc !! col with
              | Some conv => conv value
              | None => value
              end in
            build_row st sc e rest ids (vs ++ [value])
        end
  end.

Definition with_select (c : Cursor) (ids : list key) (sc : SelectCommand)
  : Cursor :=
  {| returned_ids := ids; rowcount := rowcount c;
     last_select_command := Some sc |}.

Definition fetchone (st : Settings) (c : Cursor)
  : Cursor * result (option row) :=
  match last_select_command c with
  | None => (c, Raise AttributeError)
  | Some sc =>
      match sc_results sc with
      | ResCount n => (c, Ok (Some (RowTuple [VInt n])))
      | _ =>
          match next_result sc with
          | Raise ex => (c, Raise ex)
          | Ok (None, sc') => (with_select c (returned_ids c) sc', Ok None)
          | Ok (Some e, sc') =>
              let '(ids, r) :=
                build_row st sc' e (queried_fields sc') (returned_ids c) [] in
              (with_select c ids sc', vs ← r; Ok (Some (RowList vs)))
          end
      end
  end.

(** The [while i < size] loop of [fetchmany], [n] turns from its end. *)
Fixpoint fetchmany_loop (st : Settings) (n : nat) (c : Cursor)
    (rows : list row) : Cursor * result (list row) :=
  match n with
  | O => (c, Ok rows)
  | S n' =>
      match fetchone st c with
      | (c', Raise ex) => (c', Raise ex)
      | (c', Ok None) => (c', Ok rows)
      | (c', Ok (Some entity)) => fetchmany_loop st n' c' (rows ++ [entity])
      end
  end.

Definition fetchmany (st : Settings) (c : Cursor) (size : Z)
  : Cursor * result (list row) :=
  match last_select_command c with
  | None => (c, Raise AttributeError)
  | Some sc =>
      if results_falsy (sc_results sc) then (c, Ok [])
      else fetchmany_loop st (Z.to_nat size) c []
  end.
End CursorOps.

(** ** A stand-in interpreter for the examples *)

Definition str_of_chars (u : ustring) : string :=
  String.string_of_list_ascii (map ascii_of_N u).

Definition str_of_Z (n : Z) : string :=
  (if n <? 0 then "-" else "") +:+ str_of_chars (int_digits (Z.abs n)).

(** Right on ASCII text and on integers, which is all the examples use. *)
Definition example_python : Python := {|
  utf8_decode s := if is_ascii s then Some (chars_of_str s) else None;
  py_str v :=
    match v with
    | VNone => "None"
    | VBool true => "True"
    | VBool false => "False"
    | VInt n | VLong n => str_of_Z n
    | VStr s | VBlob s => s
    | VUnicode u | VText u => str_of_chars u
    | _ => "<object>"
    end;
  py_int v :=
    match as_int_or_long v with
    | Some n => Ok (VInt n)
    | None => Raise TypeError
    end;
  py_float v :=
    match as_dyadic v with
    | Some (m, e) => Ok (VFloat m e)
    | None => Raise TypeError
    end
|}.

(** A field of a Django class, with the methods of the plain field: the
    attribute is saved as it stands. *)
Definition plain_field (model_name class name : string) (is_null is_pk is_unique : bool)
  : field :=
  {| f_name := name; attname := name; column := name;
     null := is_null; primary_key := is_pk; unique := is_unique;
     f_model := model_name; class_name := class; internal_type := class;
     max_digits := 0; decimal_places := 0;
     pre_save := fun attrs _ => default VNone (attrs !! name);
     get_db_prep_save := fun v => v |}.

Definition no_indexing : Indexing :=
  {| special_indexes_for_column := fun _ _ => [];
     REQUIRES_SPECIAL_INDEXES := ∅ |}.

Definition x600 : ustring := repeat 120%N 600.
Definition x500 : ustring := repeat 120%N 500.

(** ** Example models *)

(** A two-level hierarchy: [Child(Base)], both concrete. *)
Definition Base : model :=
  {| m_name := "Base"; app_label := "shop"; db_table := "shop_base";
     abstract := false; parents := []; parent_list := [];
     meta_fields := [plain_field "Base" "AutoField" "id" false true true;
                     plain_field "Base" "CharField" "title" false false false];
     pk_column := "id"; unique_together := []; related_objects := [] |}.

Definition Child : model :=
  {| m_name := "Child"; app_label := "shop"; db_table := "shop_child";
     abstract := false; parents := [Base]; parent_list := [Base];
     meta_fields := [plain_field "Child" "OneToOneField" "base_ptr_id" false true true;
                     plain_field "Child" "CharField" "colour" false false false];
     pk_column := "base_ptr_id"; unique_together := []; related_objects := [] |}.

Definition child_instance : instance :=
  {| attrs := list_to_map [("id", VInt 7); ("title", VUnicode [104%N]);
                           ("base_ptr_id", VInt 7); ("colour", VUnicode [114%N])];
     adding := true; related_fields := ∅ |}.

(** A model whose primary key is a string. *)
Definition slug_field : field := plain_field "Page" "CharField" "slug" false true true.

Definition Page : model :=
  {| m_name := "Page"; app_label := "cms"; db_table := "cms_page";
     abstract := false; parents := []; parent_list := [];
     meta_fields := [slug_field;
                     plain_field "Page" "TextField" "body" false false false];
     pk_column := "slug"; unique_together := []; related_objects := [] |}.

Definition page_instance (slug body : value) : instance :=
  {| attrs := list_to_map [("slug", slug); ("body", body)];
     adding := true; related_fields := ∅ |}.

Definition base_instance (id title : value) : instance :=
  {| attrs := list_to_map [("id", id); ("title", title)];
     adding := true; related_fields := ∅ |}.

Definition count_cursor (n : Z) : Cursor :=
  {| returned_ids := []; rowcount := n;
     last_select_command :=
       Some {| sc_results := ResCount n; queried_fields := [];
               sc_model := Base; field_conversions := ∅ |} |}.


(** Settings, fields, models and registries of the examples. *)
Definition tz_on : Settings := {| USE_TZ := true; COMPLETE_FLUSH_WHILE_TESTING := false |}.
Definition tz_off : Settings := {| USE_TZ := false; COMPLETE_FLUSH_WHILE_TESTING := false |}.


Definition price_field : field :=
  {| f_name := "price"; attname := "price"; column := "price";
     null := false; primary_key := false; unique := false;
     f_model := "Item"; class_name := "DecimalField";
     internal_type := "DecimalField";
     max_digits := 5; decimal_places := 2;
     pre_save := fun attrs _ => default VNone (attrs !! "price");
     get_db_prep_save := fun v => v |}.



(** A model with a unique field and a unique pair of fields. *)
Definition Account : model :=
  {| m_name := "Account"; app_label := "bank"; db_table := "bank_account";
     abstract := false; parents := []; parent_list := [];
     meta_fields := [plain_field "Account" "AutoField" "id" false true true;
                     plain_field "Account" "IntegerField" "owner" false false false;
                     plain_field "Account" "CharField" "email" false false true];
     pk_column := "id"; unique_together := [["owner"; "email"]];
     related_objects := [] |}.

Definition account_entity : entity :=
  {| e_key := Key "bank_account" (Some (Id 5));
     e_props := list_to_map [("owner", VInt 3); ("email", VStr "a@x.com")] |}.

(** [unicode.lower()] on the letters A to Z. *)
Definition lower (v : value) : value :=
  match v with
  | VUnicode u =>
      VUnicode (map (fun c => if ((65 <=? c) && (c <=? 90))%N then (c + 32)%N else c) u)
  | _ => v
  end.

(** A registry with the case-insensitive index on the columns [slug] and
    [title]. *)
Definition iexact_indexing : Indexing :=
  {| special_indexes_for_column := fun _ col =>
       if String.eqb col "slug" || String.eqb col "title" then ["iexact"] else [];
     REQUIRES_SPECIAL_INDEXES :=
       {["iexact" := {| indexed_column_name := fun col => "_idx_iexact_" +:+ col;
                        prep_value_for_database := lower |}]} |}.


Definition title_field : field :=
  plain_field "Base" "CharField" "title" false false false.

Definition iexact_indexer : indexer :=
  {| indexed_column_name := fun col => "_idx_iexact_" +:+ col;
     prep_value_for_database := lower |}.

(** A model with two unique columns, and a record of it that was written
    before the second was added. *)
Definition Member : model :=
  {| m_name := "Member"; app_label := "club"; db_table := "club_member";
     abstract := false; parents := []; parent_list := [];
     meta_fields := [plain_field "Member" "AutoField" "id" false true true;
                     plain_field "Member" "CharField" "email" false false true];
     pk_column := "id"; unique_together := []; related_objects := [] |}.

Definition old_member : entity :=
  {| e_key := Key "club_member" (Some (Id 9)); e_props := ∅ |}.

Definition count_select (n : Z) : SelectCommand :=
  {| sc_results := ResCount n; queried_fields := [];
     sc_model := Base; field_conversions := ∅ |}.

Definition Hi : ustring := [72%N; 105%N].
Definition hi : ustring := [104%N; 105%N].

Definition child_entity : entity :=
  {| e_key := Key "shop_base" (Some (Id 7));
     e_props := list_to_map
       [("base_ptr_id", VInt 7); ("colour", VUnicode [114%N]);
        ("title", VUnicode [104%N]);
        ("class", VList [VStr "shop_child"; VStr "shop_base"])] |}.

Definition indexed_base_entity : entity :=
  {| e_key := Key "shop_base" (Some (Id 1));
     e_props := list_to_map
       [("title", VUnicode Hi); ("_idx_iexact_title", VUnicode hi)] |}.

(** ** Notions the properties are stated with *)

Ltac unbind := unfold mbind, result_bind, mret, result_ret in *.

(** [d[k] = v]. *)
Definition assign (d : gmap string value) (kv : string * value)
  : gmap string value :=
  <[kv.1 := kv.2]> d.

Section Assignments.
Context `{Python}.

(** The assignments to [field_values] that the loop of the mapper makes for
    one field, in order: the column unless the field is the primary key of
    the inheritance root, then one column for each special index. *)
Definition index_assignments (ix : Indexing) (col : string) (v : value)
    (indexes : list string) : list (string * value) :=
  omap (fun idx =>
          (fun ixr => (indexed_column_name ixr col, prep_value_for_database ixr v))
            <$> REQUIRES_SPECIAL_INDEXES ix !! idx)
       indexes.

Definition field_assignments (ix : Indexing) (m root : model) (raw : bool)
    (i : instance) (f : field) : list (string * value) :=
  match get_prepared_db_value i f raw with
  | Ok v =>
      (if primary_key f && String.eqb (f_model f) (m_name root) then []
       else [(column f, v)])
      ++ index_assignments ix (column f) v
           (special_indexes_for_column ix m (column f))
  | Raise _ => []
  end.

Definition assignments (ix : Indexing) (m root : model) (raw : bool)
    (i : instance) (fs : list field) : list (string * value) :=
  flat_map (field_assignments ix m root raw i) fs.
End Assignments.

(** The order of the field names, byte by byte. *)
Definition key_order (a b : string * value) : Prop :=
  String.leb a.1 b.1 = true.

Section CacheNotions.
Context `{Python}.

(** The form [app_label.kind|field1:value1|field2:value2...]. *)
Definition key_form (m : model) (pairs : list (string * value)) : string :=
  (app_label m +:+ "." +:+ get_datastore_kind m +:+ "|") +:+
  String.concat "|" (map (fun p => p.1 +:+ ":" +:+ py_str p.2) pairs).

(** The value of a unique column in a record: the property, or the assigned
    identity when the column is the primary key and not a property. *)
Definition record_value (m : model) (e : entity) (x : string) : option value :=
  match e_props e !! x with
  | Some v => Some v
  | None =>
      if String.eqb x (pk_column m) then Some (id_or_name_value (e_key e))
      else None
  end.

(** [op] stores the record under the key of the combination [fields]. *)
Definition unique_entry (m : model) (e : entity) (fields : list string)
    (op : cache_op) : Prop :=
  exists parts sorted,
    Forall2 (fun x p => p.1 = x /\ record_value m e x = Some p.2) fields parts /\
    Permutation sorted parts /\
    Sorted key_order sorted /\
    op = CacheSet (key_form m sorted) e 10.
End CacheNotions.

(** The unique combinations a model declares, by their columns: the columns
    of the fields that an entry of [unique_together] names, and the column
    of each field that is marked unique. *)
Inductive declared_unique (m : model) : list string -> Prop :=
| declared_together (names cols : list string) :
    names ∈ unique_together m ->
    Forall2 (fun y c => exists f, get_field m y = Ok f /\ column f = c) names cols ->
    declared_unique m cols
| declared_field (f : field) :
    f ∈ meta_fields m -> unique f = true ->
    declared_unique m [column f].

(** Every column that a declared unique combination refers to has a value
    in the record: it is a property, or it is the primary-key column. *)
Definition unique_columns_present (m : model) (e : entity) : Prop :=
  forall cols x, declared_unique m cols -> x ∈ cols ->
    is_Some (e_props e !! x) \/ x = pk_column m.

(** Every name in [unique_together] is the name of a field of the model. *)
Definition unique_together_resolves (m : model) : Prop :=
  forall names y, names ∈ unique_together m -> y ∈ names ->
    is_ok (get_field m y) = true.

Section MapperNotions.
Context `{Python}.

End MapperNotions.



(** Whether Django's own [convert_values] coerces the values of a field. *)
Definition coerced_by_django (f : field) : bool :=
  String.eqb (internal_type f) "FloatField"
  || str_endswith (internal_type f) "IntegerField"
  || String.eqb (internal_type f) "AutoField".


(** Further examples: a third level under [Child], a second record with the
    unique values of [account_entity], a Select with one record to come. *)
Definition Grandchild : model :=
  {| m_name := "Grandchild"; app_label := "shop"; db_table := "shop_grandchild";
     abstract := false; parents := [Child]; parent_list := [Child; Base];
     meta_fields := [plain_field "Grandchild" "OneToOneField" "child_ptr_id" false true true;
                     plain_field "Grandchild" "CharField" "size" false false false];
     pk_column := "child_ptr_id"; unique_together := []; related_objects := [] |}.

Definition grandchild_instance : instance :=
  {| attrs := list_to_map [("id", VInt 7); ("title", VUnicode [104%N]);
                           ("base_ptr_id", VInt 7); ("colour", VUnicode [114%N]);
                           ("child_ptr_id", VInt 7); ("size", VUnicode [115%N])];
     adding := true; related_fields := ∅ |}.

Definition account_twin : entity :=
  {| e_key := Key "bank_account" (Some (Id 6));
     e_props := list_to_map [("owner", VInt 3); ("email", VStr "a@x.com");
                             ("note", VStr "second")] |}.

Definition base_record : entity :=
  {| e_key := Key "shop_base" (Some (Id 7));
     e_props := list_to_map [("title", VUnicode Hi)] |}.

Definition row_select (pending : list entity) : SelectCommand :=
  {| sc_results := ResIter pending; queried_fields := ["__key__"; "title"];
     sc_model := Base; field_conversions := ∅ |}.

Definition row_cursor (ids : list key) (pending : list entity) : Cursor :=
  {| returned_ids := ids; rowcount := -1;
     last_select_command := Some (row_select pending) |}.

Definition date_field : field :=
  plain_field "Event" "DateField" "day" false false false.

Definition time_field : field :=
  plain_field "Event" "TimeField" "opens" false false false.

Definition grandchild_entity : entity :=
  {| e_key := Key "shop_grandchild" (Some (Id 7));
     e_props := list_to_map
       [("child_ptr_id", VInt 7); ("size", VUnicode [115%N]);
        ("base_ptr_id", VInt 7); ("colour", VUnicode [114%N]);
        ("title", VUnicode [104%N]);
        ("class", VList [VStr "shop_grandchild"; VStr "shop_child";
                         VStr "shop_base"])] |}.

Definition base_key : key := Key "shop_base" (Some (Id 7)).

(** ** Further operations of the backend *)

(** [get_entity_from_cache]: [cache.get(key)], which is [None] for a key
    that is not in the cache. *)
Definition get_entity_from_cache (c : gmap string (entity * Z)) (key : string)
  : option entity :=
  fst <$> c !! key.

(** [Cursor.lastrowid]: [returned_ids[-1].id_or_name()]; [None] stands for
    the [IndexError] of an empty list. *)
Definition lastrowid (c : Cursor) : option value :=
  id_or_name_value <$> last (returned_ids c).

(** Whether a field is the primary key of the inheritance root, as
    [value_from_instance] decides it. *)
Definition is_root_pk (root : model) (f : field) : bool :=
  primary_key f && String.eqb (f_model f) (m_name root).

(** A model none of whose direct parents is a concrete model without
    parents. *)
Definition no_root_parent (m : model) : Prop :=
  forall p, p ∈ parents m -> parents p <> [] \/ abstract p = true.

(** The number of times the key is among the queried columns. *)
Definition key_columns (cols : list string) : nat :=
  length (filter (fun col : string => col = "__key__") cols).

(** * Properties *)

(** ** Flush *)

Lemma existsb_eqb_elem (x : string) (l : list string) :
  existsb (String.eqb x) l = bool_decide (x ∈ l).
Proof.
  induction l as [|y l IH].
  - reflexivity.
  - cbn [existsb]. rewrite IH. destruct (String.eqb_spec x y) as [->|Hne].
    + symmetry. apply bool_decide_eq_true_2. rewrite elem_of_cons. by left.
    + apply bool_decide_ext. rewrite elem_of_cons. intuition congruence.
Qed.

(** C8 (as amended): [sql_flush] returns one [FlushCommand] per table, in
    order; the tables are the kinds the store enumerates when
    [COMPLETE_FLUSH_WHILE_TESTING] is set and ["test"] is among the
    command-line arguments, and the caller's list in every other case. *)
Theorem sql_flush_tables (st : Settings) (argv kinds tables : list string) :
  map fc_table (sql_flush st argv kinds tables) =
  if COMPLETE_FLUSH_WHILE_TESTING st && bool_decide ("test" ∈ argv)
  then kinds else tables.
Proof.
  unfold sql_flush. rewrite existsb_eqb_elem, map_map. simpl. rewrite map_id.
  destruct (COMPLETE_FLUSH_WHILE_TESTING st), (bool_decide ("test" ∈ argv));
    reflexivity.
Qed.

(** C8, as stated, fails: with the flag set in a process that was not
    started with ["test"], the caller's list is flushed and the kinds of the
    store are not looked at. *)
Lemma sql_flush_flag_without_test :
  let st := {| USE_TZ := false; COMPLETE_FLUSH_WHILE_TESTING := true |} in
  COMPLETE_FLUSH_WHILE_TESTING st = true /\
  sql_flush st ["manage.py"; "runserver"] ["Author"; "Book"] ["Author"]
  = [{| fc_table := "Author" |}] /\
  sql_flush st ["manage.py"; "runserver"] ["Author"; "Book"] ["Author"]
  <> map (fun k => {| fc_table := k |}) ["Author"; "Book"].
Proof. repeat split. discriminate. Qed.

(** ** Cursor *)

Section CursorFacts.
Context `{Python}.

Lemma fetchone_count (st : Settings) (c : Cursor) (sc : SelectCommand) (n : Z) :
  last_select_command c = Some sc ->
  sc_results sc = ResCount n ->
  fetchone st c = (c, Ok (Some (RowTuple [VInt n]))).
Proof. intros Hc Hr. unfold fetchone. rewrite Hc, Hr. reflexivity. Qed.

Lemma fetchmany_loop_count (st : Settings) (c : Cursor) (sc : SelectCommand)
    (n : Z) (k : nat) (rows : list row) :
  last_select_command c = Some sc ->
  sc_results sc = ResCount n ->
  fetchmany_loop st k c rows = (c, Ok (rows ++ repeat (RowTuple [VInt n]) k)).
Proof.
  intros Hc Hr. revert rows. induction k as [|k IH]; intros rows.
  - simpl. by rewrite app_nil_r.
  - cbn [fetchmany_loop]. rewrite (fetchone_count st c sc n Hc Hr).
    rewrite IH. cbn [repeat]. by rewrite <- app_assoc.
Qed.

(** C9: after a Select that produced an aggregate, [fetchone] returns the
    tuple [(count,)] and leaves the cursor as it was, so that every further
    call returns it again and never [None]; for a count that is not zero,
    [fetchmany(size)] returns [size] copies of that row. *)
Theorem aggregate_row_never_exhausted (st : Settings) (c : Cursor)
    (sc : SelectCommand) (n : Z) :
  last_select_command c = Some sc ->
  sc_results sc = ResCount n ->
  fetchone st c = (c, Ok (Some (RowTuple [VInt n]))) /\
  (n <> 0 -> forall size : Z,
     fetchmany st c size
     = (c, Ok (repeat (RowTuple [VInt n]) (Z.to_nat size)))).
Proof.
  intros Hc Hr. split; [by apply (fetchone_count st c sc)|].
  intros Hn size. unfold fetchmany. rewrite Hc, Hr. cbn [results_falsy].
  destruct (Z.eqb_spec n 0) as [?|_]; [done|].
  by rewrite (fetchmany_loop_count st c sc n).
Qed.
End CursorFacts.

(** ** Primary keys *)

Lemma prep_lookup_key_never_warns (m : model) (v : value) (f : field) :
  fst (prep_lookup_key m v f) = [].
Proof.
  unfold prep_lookup_key. destruct (as_basestring v) as [s|]; [|reflexivity].
  cbn [fst]. destruct s as [s|u]; cbn [pystr_take pystr_drop].
  - replace (str_drop 500 (str_take 500 s)) with EmptyString; [reflexivity|].
    generalize 500%nat. intros n. revert s.
    induction n as [|n IH]; intros [|a s]; simpl; auto.
  - rewrite drop_ge; [reflexivity|]. rewrite length_take. lia.
Qed.

(** The write path and the lookup path clamp a string to the same name. *)
Lemma lookup_name_is_written_name (m : model) (v : value) (f : field) (s : pystr) :
  as_basestring v = Some s ->
  500 <= pystr_len s ->
  entity_kwargs v = ([truncation_warning], Ok (Some (Name (pystr_take 500 s)))) /\
  snd (prep_lookup_key m v f)
  = Ok (Key (get_datastore_kind m) (Some (Name (pystr_take 500 s)))).
Proof.
  intros Hs Hlen.
  assert (Ht : truthy v = true).
  { destruct v; try discriminate; simpl in Hs; injection Hs as <-;
      simpl in *; match goal with |- context [match ?x with _ => _ end] =>
        destruct x end; simpl in *; (reflexivity || lia). }
  assert (Hi : as_int v = None) by (destruct v; try discriminate; reflexivity).
  split.
  - unfold entity_kwargs. rewrite Ht, Hi, Hs.
    destruct (Z.leb_spec 500 (pystr_len s)); [reflexivity|lia].
  - unfold prep_lookup_key. rewrite Hs. cbn [snd].
    unfold Key_from_path. by destruct s.
Qed.

(** C2, at the oversized key: the mapper truncates the 600 characters to
    500 and warns; the lookup builds the same key and warns of nothing. *)
Lemma oversized_lookup_key_is_silent :
  django_instance_to_entity (H := example_python) no_indexing Page (meta_fields Page) false
    (page_instance (VUnicode x600) (VUnicode []))
  = ([truncation_warning],
     Ok (Entity (Key "cms_page" (Some (Name (PUni x500))))
           {["body" := VText []]})) /\
  prep_lookup_key Page (VUnicode x600) slug_field
  = ([], Ok (Key "cms_page" (Some (Name (PUni x500))))).
Proof. split; vm_compute; reflexivity. Qed.

(** The end of the mapper does not tell a falsy primary key from none. *)
Lemma make_entity_falsy (m : model) (field_values : gmap string value) (pk : value) :
  truthy pk = false ->
  make_entity m field_values pk = make_entity m field_values VNone.
Proof. intros Hf. unfold make_entity, entity_kwargs. by rewrite Hf. Qed.

Lemma make_entity_none (m : model) (field_values : gmap string value) :
  exists props,
    make_entity m field_values VNone
    = ([], Ok (Entity (Key (get_datastore_kind m) None) props)).
Proof. eexists. reflexivity. Qed.

(** ** Entity mapper *)

Section MapperFacts.
Context `{Python}.


(** A field that may not be null and resolves to [None] stops the mapper
    with an [IntegrityError]. *)
Lemma value_from_instance_null (root : model) (raw : bool) (i : instance) (f : field) :
  null f = false -> primary_key f = false ->
  get_prepared_db_value i f raw = Ok VNone ->
  value_from_instance root raw i f = Raise (IntegrityError (f_name f)).
Proof.
  intros Hn Hp Hv. unfold value_from_instance. rewrite Hv. unbind.
  by rewrite Hn, Hp.
Qed.

Lemma value_from_instance_ok (root : model) (raw : bool) (i : instance)
    (f : field) (v : value) (b : bool) :
  value_from_instance root raw i f = Ok (v, b) ->
  get_prepared_db_value i f raw = Ok v /\
  b = primary_key f && String.eqb (f_model f) (m_name root).
Proof.
  unfold value_from_instance. destruct (get_prepared_db_value i f raw) as [v'|ex];
    unbind; [|discriminate].
  destruct (negb (null f) && negb (primary_key f) && is_none v'); [discriminate|].
  intros [= <- <-]. done.
Qed.





(** C10: a primary key that comes out of the loop as the integer 0 or as
    the empty string leaves the mapper as a missing one does: the entity is
    created without an id and without a name, nothing is raised and nothing
    is warned of. *)
Theorem falsy_primary_key_is_absent (ix : Indexing) (m : model)
    (fields : list field) (raw : bool) (i : instance)
    (fv : gmap string value) (pk : value) :
  fields_loop ix m (inheritance_root m) raw i (mapped_fields m fields i)
    (∅, VNone) = Ok (fv, pk) ->
  pk = VInt 0 \/ pk = VStr "" \/ pk = VUnicode [] ->
  django_instance_to_entity ix m fields raw i = make_entity m fv VNone /\
  exists props,
    django_instance_to_entity ix m fields raw i
    = ([], Ok (Entity (Key (get_datastore_kind m) None) props)).
Proof.
  intros Hloop Hpk. unfold django_instance_to_entity. rewrite Hloop.
  assert (Hf : truthy pk = false) by (by destruct Hpk as [->|[->| ->]]).
  rewrite (make_entity_falsy m fv pk Hf). split; [done|]. apply make_entity_none.
Qed.

(** *** The dictionary of field values *)

Lemma foldl_assign_untouched (l : list (string * value)) (d : gmap string value)
    (k : string) :
  k ∉ l.*1 -> foldl assign d l !! k = d !! k.
Proof.
  revert d. induction l as [|[k1 v1] l IH]; intros d Hk; [done|].
  cbn [foldl]. rewrite IH.
  - unfold assign. cbn. apply lookup_insert_ne. intros ->. apply Hk.
    rewrite fmap_cons, elem_of_cons. by left.
  - intros Hin. apply Hk. rewrite fmap_cons, elem_of_cons. by right.
Qed.

(** The last assignment to a key wins; when all assignments to it agree,
    the dictionary holds their value. *)
Lemma foldl_assign_lookup (l : list (string * value)) (d : gmap string value)
    (k : string) (v : value) :
  (k, v) ∈ l ->
  (forall v', (k, v') ∈ l -> v' = v) ->
  foldl assign d l !! k = Some v.
Proof.
  revert d. induction l as [|[k1 v1] l IH]; intros d Hin Hsame.
  - by apply elem_of_nil in Hin.
  - cbn [foldl]. destruct (decide (k ∈ l.*1)) as [Hk|Hk].
    + apply list_elem_of_fmap in Hk as ([k' v'] & Hk' & Hin'). cbn in Hk'. subst k'.
      assert (v' = v) as -> by (apply Hsame; rewrite elem_of_cons; by right).
      apply IH; [done|]. intros v'' H''. apply Hsame. rewrite elem_of_cons. by right.
    + rewrite foldl_assign_untouched by done.
      apply elem_of_cons in Hin as [[= <- <-]|Hin].
      * unfold assign. cbn. apply lookup_insert_eq.
      * exfalso. apply Hk. apply list_elem_of_fmap. by exists (k, v).
Qed.


Lemma add_special_indexes_assignments (ix : Indexing) (col : string) (v : value)
    (indexes : list string) (fv fv' : gmap string value) :
  add_special_indexes ix col v indexes fv = Ok fv' ->
  fv' = foldl assign fv (index_assignments ix col v indexes).
Proof.
  revert fv. induction indexes as [|idx rest IH]; intros fv; cbn.
  - by intros [= <-].
  - unfold index_assignments. cbn [omap list_omap].
    destruct (REQUIRES_SPECIAL_INDEXES ix !! idx) as [ixr|]; [|discriminate].
    cbn. intros Hrest. by apply IH in Hrest.
Qed.

Lemma fields_loop_assignments (ix : Indexing) (m root : model) (raw : bool)
    (i : instance) (fs : list field) (fv0 fv : gmap string value) (pk0 pk : value) :
  fields_loop ix m root raw i fs (fv0, pk0) = Ok (fv, pk) ->
  fv = foldl assign fv0 (assignments ix m root raw i fs).
Proof.
  revert fv0 pk0. induction fs as [|g rest IH]; intros fv0 pk0.
  - cbn. by intros [= <- _].
  - cbn [fields_loop]. unfold assignments. cbn [flat_map].
    rewrite foldl_app. fold (assignments ix m root raw i rest).
    destruct (value_from_instance root raw i g) as [[v b]|ex] eqn:Hv;
      unbind; [|discriminate].
    apply value_from_instance_ok in Hv as [Hv ->].
    unfold field_assignments. rewrite Hv. rewrite foldl_app.
    destruct (primary_key g && String.eqb (f_model g) (m_name root));
      (destruct (add_special_indexes ix (column g) v _ _) as [fv1|] eqn:Hix;
       [|discriminate]);
      apply add_special_indexes_assignments in Hix; subst fv1;
      intros Hrest; by apply IH in Hrest.
Qed.


Lemma elem_of_assignments (ix : Indexing) (m root : model) (raw : bool)
    (i : instance) (fs : list field) (f : field) (kv : string * value) :
  f ∈ fs -> kv ∈ field_assignments ix m root raw i f ->
  kv ∈ assignments ix m root raw i fs.
Proof.
  intros Hf Hkv. unfold assignments. apply list_elem_of_In, in_flat_map.
  exists f. by rewrite <- !list_elem_of_In.
Qed.

Lemma column_assigned (ix : Indexing) (m root : model) (raw : bool)
    (i : instance) (f : field) (v : value) :
  get_prepared_db_value i f raw = Ok v ->
  primary_key f && String.eqb (f_model f) (m_name root) = false ->
  (column f, v) ∈ field_assignments ix m root raw i f.
Proof.
  intros Hv Hpk. unfold field_assignments. rewrite Hv, Hpk.
  rewrite elem_of_app. left. rewrite elem_of_cons. by left.
Qed.

Lemma index_column_assigned (ix : Indexing) (m root : model) (raw : bool)
    (i : instance) (f : field) (v : value) (idx : string) (ixr : indexer) :
  get_prepared_db_value i f raw = Ok v ->
  idx ∈ special_indexes_for_column ix m (column f) ->
  REQUIRES_SPECIAL_INDEXES ix !! idx = Some ixr ->
  (indexed_column_name ixr (column f), prep_value_for_database ixr v)
  ∈ field_assignments ix m root raw i f.
Proof.
  intros Hv Hidx Hreg. unfold field_assignments. rewrite Hv.
  rewrite elem_of_app. right. unfold index_assignments.
  apply list_elem_of_omap. exists idx. split; [done|]. by rewrite Hreg.
Qed.

(** What the mapper returns when it returns an entity. *)
Lemma mapper_entity (ix : Indexing) (m : model) (fields : list field)
    (raw : bool) (i : instance) (ws : list warning) (e : entity) :
  django_instance_to_entity ix m fields raw i = (ws, Ok e) ->
  exists pk,
    fields_loop ix m (inheritance_root m) raw i (mapped_fields m fields i)
      (∅, VNone)
    = Ok (foldl assign ∅
            (assignments ix m (inheritance_root m) raw i (mapped_fields m fields i)),
          pk) /\
    key_kind (e_key e) = get_datastore_kind m /\
    e_props e =
      let fv := foldl assign ∅
                  (assignments ix m (inheritance_root m) raw i
                     (mapped_fields m fields i)) in
      if uses_inheritance m
      then <["class" := VList (map VStr (classes m))]> fv else fv.
Proof.
  unfold django_instance_to_entity.
  destruct (fields_loop _ _ _ _ _ _ _) as [[fv pk]|ex] eqn:Hloop; [|discriminate].
  pose proof (fields_loop_assignments _ _ _ _ _ _ _ _ _ _ Hloop) as ->.
  unfold make_entity. destruct (entity_kwargs pk) as [ws' [kw|ex]]; [|discriminate].
  intros [= _ <-]. exists pk. done.
Qed.

(** C7 (as amended): after a successful mapping, each special index
    registered for the column of a field of the row has its column in the
    entity, under the name the indexer gives it and with the indexer's
    transform of the encoded value of the field, as long as no assignment of
    the row puts another value under that name; the column of the field
    itself is there too unless the field is the primary key of the
    inheritance root. *)
Theorem special_index_columns_attached (ix : Indexing) (m : model)
    (fields : list field) (raw : bool) (i : instance)
    (ws : list warning) (e : entity)
    (f : field) (v : value) (idx : string) (ixr : indexer) :
  let root := inheritance_root m in
  let fs := mapped_fields m fields i in
  let consistent (name : string) (x : value) :=
    (forall x', (name, x') ∈ assignments ix m root raw i fs -> x' = x) /\
    (uses_inheritance m = true -> name <> "class") in
  django_instance_to_entity ix m fields raw i = (ws, Ok e) ->
  f ∈ fs ->
  get_prepared_db_value i f raw = Ok v ->
  idx ∈ special_indexes_for_column ix m (column f) ->
  REQUIRES_SPECIAL_INDEXES ix !! idx = Some ixr ->
  (consistent (indexed_column_name ixr (column f)) (prep_value_for_database ixr v) ->
   e_props e !! indexed_column_name ixr (column f)
   = Some (prep_value_for_database ixr v)) /\
  (primary_key f && String.eqb (f_model f) (m_name root) = false ->
   consistent (column f) v ->
   e_props e !! column f = Some v).
Proof.
  intros root fs consistent Hmap Hf Hv Hidx Hreg.
  apply mapper_entity in Hmap as (pk & _ & _ & Hprops). rewrite Hprops. cbn zeta.
  fold root fs.
  assert (Hlook : forall name x,
            (name, x) ∈ assignments ix m root raw i fs -> consistent name x ->
            (if uses_inheritance m
             then <["class" := VList (map VStr (classes m))]>
                    (foldl assign ∅ (assignments ix m root raw i fs))
             else foldl assign ∅ (assignments ix m root raw i fs)) !! name
            = Some x).
  { intros name x Hin [Hsame Hclass].
    destruct (uses_inheritance m).
    - rewrite lookup_insert_ne by (intros Heq; by apply Hclass).
      by apply foldl_assign_lookup.
    - by apply foldl_assign_lookup. }
  split.
  - intros Hc. apply Hlook; [|done].
    apply (elem_of_assignments ix m root raw i fs f); [done|].
    by apply (index_column_assigned ix m root raw i f v idx ixr).
  - intros Hpk Hc. apply Hlook; [|done].
    apply (elem_of_assignments ix m root raw i fs f); [done|].
    by apply column_assigned.
Qed.

(** *** Inheritance *)

End MapperFacts.

(** ** Unique-constraint cache *)

Lemma map_result_Forall2 {A B} (f : A -> result B) (l : list A) (ys : list B) :
  map_result f l = Ok ys -> Forall2 (fun x y => f x = Ok y) l ys.
Proof.
  revert ys. induction l as [|x l IH]; intros ys; cbn.
  - intros [= <-]. constructor.
  - destruct (f x) as [y|] eqn:Hx; unbind; [|discriminate].
    destruct (map_result f l) as [ys'|]; [|discriminate].
    intros [= <-]. constructor; [done|by apply IH].
Qed.

Lemma insert_by_key_perm (x : string * value) (l : list (string * value)) :
  Permutation (insert_by_key x l) (x :: l).
Proof.
  induction l as [|y l IH]; cbn; [done|].
  destruct (String.leb x.1 y.1); [done|].
  rewrite IH. apply perm_swap.
Qed.

Lemma sorted_by_key_perm (l : list (string * value)) :
  Permutation (sorted_by_key l) l.
Proof.
  induction l as [|x l IH]; cbn; [done|].
  fold (sorted_by_key l). rewrite insert_by_key_perm. by constructor.
Qed.

Lemma insert_by_key_hd (a x : string * value) (l : list (string * value)) :
  HdRel key_order a l -> key_order a x -> HdRel key_order a (insert_by_key x l).
Proof.
  intros Hl Hx. destruct l as [|y l]; cbn; [by constructor|].
  destruct (String.leb x.1 y.1); constructor; [done|by inversion Hl].
Qed.

Lemma insert_by_key_sorted (x : string * value) (l : list (string * value)) :
  Sorted key_order l -> Sorted key_order (insert_by_key x l).
Proof.
  induction 1 as [|y l Hs IH Hhd]; cbn; [by repeat constructor|].
  destruct (String.leb x.1 y.1) eqn:Hxy.
  - by repeat constructor.
  - constructor; [done|]. apply insert_by_key_hd; [done|].
    unfold key_order. destruct (String.leb_total y.1 x.1); congruence.
Qed.

Lemma sorted_by_key_sorted (l : list (string * value)) :
  Sorted key_order (sorted_by_key l).
Proof.
  induction l as [|x l IH]; cbn; [constructor|].
  by apply insert_by_key_sorted.
Qed.

Lemma run_sets_lookup (e : entity) (t : Z) (keys : list string)
    (c : gmap string (entity * Z)) (k : string) :
  run_cache_ops (map (fun key => CacheSet key e t) keys) c !! k
  = if bool_decide (k ∈ keys) then Some (e, t) else c !! k.
Proof.
  unfold run_cache_ops. revert c.
  induction keys as [|k1 keys IH]; intros c; cbn; [done|].
  rewrite IH. destruct (decide (k ∈ keys)) as [Hin|Hin].
  - rewrite !bool_decide_eq_true_2; [done|by rewrite elem_of_cons; right|done].
  - rewrite (bool_decide_eq_false_2 _ Hin).
    destruct (decide (k = k1)) as [->|Hne].
    + rewrite lookup_insert_eq, bool_decide_eq_true_2; [done|].
      rewrite elem_of_cons. by left.
    + rewrite lookup_insert_ne by done. rewrite bool_decide_eq_false_2; [done|].
      rewrite elem_of_cons. intuition.
Qed.

Lemma run_deletes_lookup (keys : list string) (c : gmap string (entity * Z))
    (k : string) :
  run_cache_ops (map CacheDelete keys) c !! k
  = if bool_decide (k ∈ keys) then None else c !! k.
Proof.
  unfold run_cache_ops. revert c.
  induction keys as [|k1 keys IH]; intros c; cbn; [done|].
  rewrite IH. destruct (decide (k ∈ keys)) as [Hin|Hin].
  - rewrite !bool_decide_eq_true_2; [done|by rewrite elem_of_cons; right|done].
  - rewrite (bool_decide_eq_false_2 _ Hin).
    destruct (decide (k = k1)) as [->|Hne].
    + rewrite lookup_delete_eq, bool_decide_eq_true_2; [done|].
      rewrite elem_of_cons. by left.
    + rewrite lookup_delete_ne by done. rewrite bool_decide_eq_false_2; [done|].
      rewrite elem_of_cons. intuition.
Qed.

Lemma map_result_ok {A B} (f : A -> result B) (l : list A) :
  (forall x, x ∈ l -> is_ok (f x) = true) -> exists ys, map_result f l = Ok ys.
Proof.
  induction l as [|x l IH]; intros Hok; cbn; [by eexists|].
  pose proof (Hok x) as Hx. destruct (f x) as [y|]; unbind.
  - destruct IH as [ys ->]; [|by eexists].
    intros x' Hin. apply Hok. rewrite elem_of_cons. by right.
  - discriminate Hx. rewrite elem_of_cons. by left.
Qed.

Lemma Forall2_elem_of_l {A B} (R : A -> B -> Prop) (l : list A) (k : list B) (x : A) :
  Forall2 R l k -> x ∈ l -> exists y, y ∈ k /\ R x y.
Proof.
  intros HF Hin. apply list_elem_of_lookup in Hin as [n Hn].
  destruct (Forall2_lookup_l R l k n x HF Hn) as (y & Hy & HR).
  exists y. split; [by eapply list_elem_of_lookup_2|done].
Qed.

Lemma Forall2_elem_of_r {A B} (R : A -> B -> Prop) (l : list A) (k : list B) (y : B) :
  Forall2 R l k -> y ∈ k -> exists x, x ∈ l /\ R x y.
Proof.
  intros HF Hin. apply list_elem_of_lookup in Hin as [n Hn].
  destruct (Forall2_lookup_r R l k n y HF Hn) as (x & Hx & HR).
  exists x. split; [by eapply list_elem_of_lookup_2|done].
Qed.

(** ** The unique combinations of a model *)

(** The columns of the fields that a list of names refers to. *)
Lemma named_columns (m : model) (names cols : list string) :
  map_result (fun y => f ← get_field m y; Ok (column f)) names = Ok cols ->
  Forall2 (fun y c => exists f, get_field m y = Ok f /\ column f = c) names cols.
Proof.
  intros Hm. apply map_result_Forall2 in Hm.
  eapply Forall2_impl; [exact Hm|]. cbn. intros y c.
  destruct (get_field m y) as [f|]; unbind; [|discriminate].
  intros [= <-]. by exists f.
Qed.

Lemma named_columns_unique (m : model) (names cols cols' : list string) :
  Forall2 (fun y c => exists f, get_field m y = Ok f /\ column f = c) names cols ->
  Forall2 (fun y c => exists f, get_field m y = Ok f /\ column f = c) names cols' ->
  cols = cols'.
Proof.
  intros HF. revert cols'.
  induction HF as [|y c ys cs (f & Hf & <-) _ IH]; intros cols' HF';
    inversion HF' as [|y' c' ys' cs' (f' & Hf' & <-) HF'']; subst; [done|].
  rewrite Hf in Hf'. injection Hf' as <-. f_equal. by apply IH.
Qed.

(** [get_uniques_from_model] returns the declared combinations, those of
    [unique_together] first. *)
Lemma get_uniques_declared (m : model) (combos : list (list string)) :
  get_uniques_from_model m = Ok combos ->
  length combos
  = (length (unique_together m)
     + length (filter (fun f => unique f = true) (meta_fields m)))%nat /\
  forall cols, cols ∈ combos <-> declared_unique m cols.
Proof.
  unfold get_uniques_from_model.
  destruct (map_result _ (unique_together m)) as [tog|] eqn:Htog;
    unbind; [|discriminate].
  intros [= <-]. apply map_result_Forall2 in Htog.
  split.
  { rewrite length_app, length_map. f_equal. symmetry.
    by eapply Forall2_length. }
  intros cols. rewrite elem_of_app. split.
  - intros [Hin|Hin].
    + destruct (Forall2_elem_of_r _ _ _ cols Htog Hin) as (names & Hnames & Hcols).
      apply (declared_together m names cols Hnames). by apply named_columns.
    + apply list_elem_of_In, in_map_iff in Hin as (f & <- & Hf).
      apply list_elem_of_In, list_elem_of_filter in Hf as [Hu Hf].
      by apply declared_field.
  - intros [names cols' Hnames Hcols|f Hf Hu].
    + left.
      destruct (Forall2_elem_of_l _ _ _ names Htog Hnames) as (tcols & Hin & Hm).
      apply named_columns in Hm.
      by rewrite (named_columns_unique m names cols' tcols Hcols Hm).
    + right. apply list_elem_of_In, in_map_iff. exists f. split; [done|].
      apply list_elem_of_In, list_elem_of_filter. by split.
Qed.

Lemma get_uniques_resolves (m : model) :
  unique_together_resolves m -> exists combos, get_uniques_from_model m = Ok combos.
Proof.
  intros Hres. unfold get_uniques_from_model.
  destruct (map_result_ok
              (fun x => map_result (fun y => f ← get_field m y; Ok (column f)) x)
              (unique_together m)) as [tog ->]; [|unbind; by eexists].
  intros names Hnames.
  destruct (map_result_ok (fun y => f ← get_field m y; Ok (column f)) names)
    as [cols ->]; [|done].
  intros y Hy. specialize (Hres names y Hnames Hy).
  destruct (get_field m y); [done|discriminate].
Qed.

Section CacheFacts.
Context `{Python}.

Lemma key_part_value (m : model) (e : entity) (x : string) (p : string * value) :
  key_part m e x = Ok p -> p.1 = x /\ record_value m e x = Some p.2.
Proof.
  unfold key_part, record_value.
  destruct (e_props e !! x) as [v|] eqn:Hx.
  - rewrite bool_decide_eq_true_2 by (by eexists). rewrite andb_false_r.
    by intros [= <-].
  - rewrite bool_decide_eq_false_2 by (by intros [? ?]). rewrite andb_true_r.
    destruct (String.eqb x (pk_column m)); [|discriminate]. by intros [= <-].
Qed.

Lemma key_part_present (m : model) (e : entity) (x : string) :
  is_Some (e_props e !! x) \/ x = pk_column m ->
  is_ok (key_part m e x) = true.
Proof.
  unfold key_part. destruct (e_props e !! x) as [v|] eqn:Hx.
  - intros _. by destruct (_ && _).
  - intros [[? [=]]| ->]. rewrite String.eqb_refl.
    by rewrite bool_decide_eq_false_2 by (by intros [? ?]).
Qed.

Lemma unique_key_present (m : model) (e : entity) (fields : list string) :
  (forall x, x ∈ fields -> is_Some (e_props e !! x) \/ x = pk_column m) ->
  is_ok (unique_key m e fields) = true.
Proof.
  intros Hp. unfold unique_key.
  destruct (map_result_ok (key_part m e) fields) as [parts ->]; [|done].
  intros x Hx. by apply key_part_present, Hp.
Qed.

Lemma unique_key_entry (m : model) (e : entity) (fields : list string) (k : string) :
  unique_key m e fields = Ok k ->
  unique_entry m e fields (CacheSet k e DEFAULT_CACHE_TIMEOUT).
Proof.
  unfold unique_key.
  destruct (map_result (key_part m e) fields) as [parts|] eqn:Hparts;
    unbind; [|discriminate].
  intros [= <-]. exists parts, (sorted_by_key parts). repeat split.
  - apply map_result_Forall2 in Hparts.
    eapply Forall2_impl; [exact Hparts|]. cbn. intros x p. apply key_part_value.
  - apply sorted_by_key_perm.
  - apply sorted_by_key_sorted.
  - unfold generate_unique_key, key_form. do 3 f_equal.
    apply map_ext. by intros [? ?].
Qed.

(** What [cache_entity] does when no key fails. *)
Lemma cache_entity_ok (m : model) (e : entity) (ops : list cache_op) :
  cache_entity m e = (ops, None) ->
  exists combos keys,
    get_uniques_from_model m = Ok combos /\
    map_result (unique_key m e) combos = Ok keys /\
    ops = map (fun key => CacheSet key e DEFAULT_CACHE_TIMEOUT) keys.
Proof.
  unfold cache_entity.
  destruct (get_uniques_from_model m) as [combos|]; unbind; [|discriminate].
  destruct (map_result (unique_key m e) combos) as [keys|] eqn:Hk; [|discriminate].
  intros [= <-]. by exists combos, keys.
Qed.

(** When the names of [unique_together] resolve and the record has a value
    for every unique column, [cache_entity] goes through: it computes one
    key for each declared combination and sets them all. *)
Lemma cache_entity_complete (m : model) (e : entity) :
  unique_together_resolves m ->
  unique_columns_present m e ->
  exists combos keys,
    get_uniques_from_model m = Ok combos /\
    Forall2 (fun cols k => unique_key m e cols = Ok k) combos keys /\
    cache_entity m e
    = (map (fun key => CacheSet key e DEFAULT_CACHE_TIMEOUT) keys, None).
Proof.
  intros Hres Hpres. destruct (get_uniques_resolves m Hres) as [combos Hu].
  destruct (get_uniques_declared m combos Hu) as [_ Hdecl].
  destruct (map_result_ok (unique_key m e) combos) as [keys Hk].
  { intros cols Hin. apply unique_key_present. intros x Hx.
    apply (Hpres cols x); [by apply Hdecl|done]. }
  exists combos, keys. split; [done|]. split; [by apply map_result_Forall2|].
  unfold cache_entity. rewrite Hu. unbind. by rewrite Hk.
Qed.

(** C4 (as amended): when the names of [unique_together] are fields of the
    model and every column of a declared unique combination is a property
    of the record or the primary-key column, [cache_entity] goes through and
    issues one [cache.set] for each declared combination and no other: of
    the whole record, with timeout 10, under the key
    [app_label.kind|field1:value1|field2:value2...] of the combination, its
    pairs sorted by field name; the value of a column is the property of the
    record, or the identity of its key when the column is the primary key
    and not a property. *)
Theorem unique_cache_keys (m : model) (e : entity) :
  unique_together_resolves m ->
  unique_columns_present m e ->
  exists ops,
    cache_entity m e = (ops, None) /\
    length ops
    = (length (unique_together m)
       + length (filter (fun f => unique f = true) (meta_fields m)))%nat /\
    (forall cols, declared_unique m cols ->
       exists op, op ∈ ops /\ unique_entry m e cols op) /\
    (forall op, op ∈ ops ->
       exists cols, declared_unique m cols /\ unique_entry m e cols op).
Proof.
  intros Hres Hpres.
  destruct (cache_entity_complete m e Hres Hpres) as (combos & keys & Hu & Hk & Hc).
  destruct (get_uniques_declared m combos Hu) as [Hlen Hdecl].
  assert (HF : Forall2 (unique_entry m e) combos
                 (map (fun key => CacheSet key e DEFAULT_CACHE_TIMEOUT) keys)).
  { change (map ?f keys) with (f <$> keys). rewrite Forall2_fmap_r.
    eapply Forall2_impl; [exact Hk|]. cbn. intros cols k. apply unique_key_entry. }
  eexists. split; [exact Hc|]. split; [|split].
  - rewrite <- Hlen. symmetry. by eapply Forall2_length.
  - intros cols Hd. apply Hdecl in Hd.
    by apply (Forall2_elem_of_l _ _ _ cols HF).
  - intros op Hop.
    destruct (Forall2_elem_of_r _ _ _ op HF Hop) as (cols & Hin & Hentry).
    exists cols. split; [by apply Hdecl|done].
Qed.

Lemma uncache_loop_keys (m : model) (e : entity) (combos : list (list string))
    (keys : list string) :
  Forall2 (fun cols k => unique_key m e cols = Ok k) combos keys ->
  uncache_loop m e combos = (map CacheDelete keys, None).
Proof.
  induction 1 as [|cols k combos keys Hk _ IH]; cbn; [done|].
  by rewrite Hk, IH.
Qed.

(** C5 (as amended): when the names of [unique_together] are fields of the
    model and every column of a declared unique combination is a property
    of the record or the primary-key column, [uncache_entity] deletes
    exactly the keys under which [cache_entity] stores the record, which are
    the keys of the declared combinations: after both, those keys are gone
    from the cache and every other key is as it was before. *)
Theorem uncache_deletes_cached_keys (m : model) (e : entity) :
  unique_together_resolves m ->
  unique_columns_present m e ->
  exists keys,
    cache_entity m e = (map (fun key => CacheSet key e 10) keys, None) /\
    uncache_entity m e = (map CacheDelete keys, None) /\
    (forall k, k ∈ keys <->
       exists cols, declared_unique m cols /\ unique_key m e cols = Ok k) /\
    forall (c : gmap string (entity * Z)) (k : string),
      run_cache_ops (map CacheDelete keys)
        (run_cache_ops (map (fun key => CacheSet key e 10) keys) c) !! k
      = if bool_decide (k ∈ keys) then None else c !! k.
Proof.
  intros Hres Hpres.
  destruct (cache_entity_complete m e Hres Hpres) as (combos & keys & Hu & Hk & Hc).
  destruct (get_uniques_declared m combos Hu) as [_ Hdecl].
  exists keys. split; [exact Hc|]. split; [|split].
  - unfold uncache_entity. rewrite Hu. by apply uncache_loop_keys.
  - intros k. split.
    + intros Hin.
      destruct (Forall2_elem_of_r _ _ _ k Hk Hin) as (cols & Hcols & Hkey).
      exists cols. split; [by apply Hdecl|done].
    + intros (cols & Hd & Hkey). apply Hdecl in Hd.
      destruct (Forall2_elem_of_l _ _ _ cols Hk Hd) as (k' & Hin & Hkey').
      rewrite Hkey in Hkey'. by injection Hkey' as ->.
  - intros c k. rewrite run_deletes_lookup, run_sets_lookup.
    by destruct (bool_decide (k ∈ keys)).
Qed.
End CacheFacts.

(** ** Value codec *)

(** *** Decimal strings *)

















(** *** Round trip *)

Section CodecFacts.
Context `{Python}.

Lemma base_convert_plain (v : value) (f : field) :
  coerced_by_django f = false -> base_convert_values v (Some f) = Ok v.
Proof.
  unfold coerced_by_django, base_convert_values. intros Hc.
  apply orb_false_elim in Hc as [Hc H3]. apply orb_false_elim in Hc as [H1 H2].
  rewrite H1, H2, H3. by destruct v.
Qed.

#[local] Arguments base_convert_values : simpl never.
#[local] Arguments db_type : simpl never.


End CodecFacts.

(** * Further properties of the backend *)

#[local] Set Warnings "-clear-no-such-hyp".

(** ** Value codec: [None], integers, repeated encoding *)

Section CodecEdges.
Context `{Python}.

#[local] Arguments base_convert_values : simpl never.
#[local] Arguments db_type : simpl never.

(** X1: [None] is written for every field, whatever its class, as [None];
    reading [None] back raises [AttributeError] for a date and for a time
    field ([None] has no [date()] and no [time()]), gives [None] for every
    other type of the table, and is a [KeyError] for a class that is not in
    the table. *)
Theorem none_write_and_read (st : Settings) (f : field) :
  value_for_db VNone f = Ok VNone /\
  convert_values st VNone (Some f)
  = match db_type f with
    | Ok t =>
        if String.eqb t "date" || String.eqb t "time"
        then Raise AttributeError else Ok VNone
    | Raise ex => Raise ex
    end.
Proof.
  split; [reflexivity|]. unfold convert_values, db_type_of.
  cbn [base_convert_values]. unfold base_convert_values. unbind.
  destruct (db_type f) as [t|ex]; [|reflexivity]. cbn [as_str].
  rewrite bool_decide_eq_false_2 by (by intros [? ?]). rewrite andb_false_r.
  destruct (String.eqb_spec t "datetime") as [->|_]; [reflexivity|].
  destruct (String.eqb_spec t "date") as [->|_]; [reflexivity|].
  destruct (String.eqb_spec t "time") as [->|_]; [reflexivity|].
  cbn [orb]. by destruct (String.eqb t "decimal").
Qed.

(** X2: a time cannot be read from the integer that a datastore query
    returns: [value_from_db_time] turns the integer into a time and then
    asks it for [time()], which only a datetime has. *)
Theorem time_from_integer_fails (st : Settings) (v : value) (n : Z) :
  as_int_or_long v = Some n ->
  is_ok (value_from_db_time st v) = false.
Proof.
  intros Hn. unfold value_from_db_time. rewrite Hn. unbind.
  unfold attach_utc. cbn. by destruct (USE_TZ st).
Qed.

(** X3: encoding is idempotent for every type but time and datetime: a
    value that [value_for_db] has produced is left as it is by a second
    [value_for_db] for the same field. *)
Theorem value_for_db_idempotent (f : field) (t : string) (v v' : value) :
  db_type f = Ok t ->
  t <> "time" -> t <> "datetime" ->
  value_for_db v f = Ok v' ->
  value_for_db v' f = Ok v'.
Proof.
  intros Hdb Htime Hdt. unfold value_for_db. rewrite Hdb. unbind.
  destruct (String.eqb_spec t "string") as [->|_].
  { unfold decode. destruct v; cbn; try (by intros [= <-]);
      (destruct (utf8_decode s); cbn; [by intros [= <-]|discriminate]). }
  destruct (String.eqb_spec t "text") as [->|_].
  { unfold decode. destruct v; cbn; try discriminate; try (by intros [= <-]);
      (destruct (utf8_decode s); cbn; [by intros [= <-]|discriminate]). }
  cbn [orb].
  destruct (String.eqb_spec t "bytes") as [->|_].
  { destruct v; cbn; try discriminate; by intros [= <-]. }
  destruct (String.eqb_spec t "date") as [->|_].
  { destruct v; cbn; try discriminate; by intros [= <-]. }
  destruct (String.eqb_spec t "datetime") as [->|_]; [done|].
  destruct (String.eqb_spec t "time") as [->|_]; [done|].
  destruct (String.eqb_spec t "decimal") as [->|_].
  { destruct v; cbn; by intros [= <-]. }
  destruct v; by intros [= <-].
Qed.

(** X4: a datetime written to a date field is stored as the midnight of
    its own calendar day, without conversion to UTC, and is read back as
    that day. *)
Theorem datetime_in_date_field (st : Settings) (f : field) (dt : datetime) :
  db_type f = Ok "date" ->
  coerced_by_django f = false ->
  value_for_db (VDatetime dt) f = Ok (VDatetime (Datetime (dt_day dt) 0 None)) /\
  convert_values st (VDatetime (Datetime (dt_day dt) 0 None)) (Some f)
  = Ok (VDate (Date (dt_day dt))).
Proof.
  intros Hdb Hplain. unfold value_for_db, convert_values, db_type_of.
  rewrite Hdb, base_convert_plain by done. done.
Qed.

(** X5: for a decimal field that is not the primary key, a lookup value is
    prepared exactly as the value is written, so that an equality filter
    compares like with like. *)
Theorem decimal_lookup_is_written_form (m : model) (f : field) (v : value) :
  primary_key f = false ->
  db_type f = Ok "decimal" ->
  prep_lookup_value m v f = ([], value_for_db v f).
Proof.
  intros Hpk Hdb. unfold prep_lookup_value, prep_lookup_decimal, value_for_db.
  rewrite Hpk, Hdb. cbn. by destruct v.
Qed.
End CodecEdges.

(** ** Keys *)

Lemma str_take_all (n : nat) (s : string) :
  (String.length s <= n)%nat -> str_take n s = s.
Proof.
  revert s. induction n as [|n IH]; intros [|a s] Hlen; cbn in *; try done; try lia.
  f_equal. apply IH. lia.
Qed.

Lemma str_take_length (n : nat) (s : string) :
  String.length (str_take n s) = Nat.min n (String.length s).
Proof.
  revert s. induction n as [|n IH]; intros [|a s]; cbn; try done.
  by rewrite IH.
Qed.

Lemma pystr_take_all (n : nat) (s : pystr) :
  pystr_len s <= Z.of_nat n -> pystr_take n s = s.
Proof.
  destruct s as [s|u]; cbn; intros Hlen; f_equal.
  - apply str_take_all. lia.
  - apply take_ge. lia.
Qed.

Lemma pystr_take_len (n : nat) (s : pystr) :
  pystr_len (pystr_take n s) = Z.min (Z.of_nat n) (pystr_len s).
Proof.
  destruct s as [s|u]; cbn.
  - rewrite str_take_length. lia.
  - rewrite length_take. lia.
Qed.

Lemma basestring_truthy (v : value) (s : pystr) :
  as_basestring v = Some s -> truthy v = pystr_nonempty s /\ as_int v = None.
Proof. destruct v; try discriminate; by intros [= <-]. Qed.

(** X6: the identity of a string primary key.  The name is the key cut to
    500 characters; the warning is given from 500 characters on, so that a
    key of exactly 500 characters is warned of and stored whole. *)
Theorem string_key_identity (v : value) (s : pystr) :
  as_basestring v = Some s ->
  pystr_nonempty s = true ->
  entity_kwargs v
  = (if 500 <=? pystr_len s then [truncation_warning] else [],
     Ok (Some (Name (pystr_take 500 s)))) /\
  (pystr_len s <= 500 -> pystr_take 500 s = s) /\
  pystr_len (pystr_take 500 s) = Z.min 500 (pystr_len s).
Proof.
  intros Hs Hne. destruct (basestring_truthy v s Hs) as [Ht Hi].
  split; [|split].
  - unfold entity_kwargs. rewrite Ht, Hne, Hi, Hs.
    destruct (Z.leb_spec 500 (pystr_len s)); [done|].
    by rewrite pystr_take_all by lia.
  - intros Hlen. apply pystr_take_all. lia.
  - by rewrite pystr_take_len.
Qed.

(** X7: a primary key that is a [long] and not zero is refused by the
    mapper, which accepts an [int] only, while the lookup path builds a key
    from it. *)
Theorem long_key_write_and_lookup (m : model) (f : field)
    (field_values : gmap string value) (n : Z) :
  n <> 0 ->
  make_entity m field_values (VLong n) = ([], Raise ValueError) /\
  prep_lookup_key m (VLong n) f
  = ([], Ok (Key (get_datastore_kind m) (Some (Id n)))).
Proof.
  intros Hn. split; [|reflexivity].
  unfold make_entity, entity_kwargs. cbn.
  by destruct (Z.eqb_spec n 0).
Qed.

Section KeyFacts.
Context `{Python}.

(** X8: whenever the mapper gives the entity an identity, looking up the
    primary key value it was built from gives the key of the entity: the
    same kind and the same id or name, truncated alike. *)
Theorem lookup_key_is_entity_key (ix : Indexing) (m : model)
    (fields : list field) (raw : bool) (i : instance)
    (fv : gmap string value) (pk : value) (ws : list warning) (e : entity)
    (f : field) :
  fields_loop ix m (inheritance_root m) raw i (mapped_fields m fields i)
    (∅, VNone) = Ok (fv, pk) ->
  django_instance_to_entity ix m fields raw i = (ws, Ok e) ->
  is_Some (key_ident (e_key e)) ->
  snd (prep_lookup_key m pk f) = Ok (e_key e).
Proof.
  intros Hloop. unfold django_instance_to_entity. rewrite Hloop.
  unfold make_entity, entity_kwargs.
  destruct (truthy pk) eqn:Ht.
  2:{ intros [= _ <-] [? Hid]. discriminate Hid. }
  destruct (as_int pk) as [n|] eqn:Hi.
  - intros [= _ <-] _. unfold prep_lookup_key.
    destruct pk; try discriminate Hi; injection Hi as <-; reflexivity.
  - destruct (as_basestring pk) as [s|] eqn:Hs; [|discriminate].
    unfold prep_lookup_key. rewrite Hs. cbn [snd].
    assert (Hk : Key_from_path (get_datastore_kind m) (pystr_value (pystr_take 500 s))
                 = Ok (Key (get_datastore_kind m) (Some (Name (pystr_take 500 s)))))
      by (by destruct s).
    rewrite Hk.
    destruct (Z.leb_spec 500 (pystr_len s)); intros [= _ <-] _; [done|].
    by rewrite pystr_take_all by lia.
Qed.
End KeyFacts.

(** ** Kinds *)

Lemma first_root_table_own (ps : list model) (t : string) :
  (forall p, p ∈ ps -> parents p <> [] \/ abstract p = true) ->
  first_root_table ps t = t.
Proof.
  induction ps as [|p ps IH]; intros Hps; cbn; [done|].
  assert (IH' : first_root_table ps t = t).
  { apply IH. intros q Hq. apply Hps. rewrite elem_of_cons. by right. }
  destruct (Hps p) as [Hp|Hp]; [rewrite elem_of_cons; by left| |].
  - by destruct (parents p).
  - rewrite Hp. by destruct (parents p).
Qed.

Lemma first_root_table_parent (ps : list model) (t : string) (p : model) :
  p ∈ ps -> parents p = [] -> abstract p = false ->
  exists p', p' ∈ ps /\ parents p' = [] /\ abstract p' = false /\
             first_root_table ps t = db_table p'.
Proof.
  induction ps as [|q ps IH]; intros Hin Hp Ha; [by apply elem_of_nil in Hin|].
  cbn. destruct (parents q) as [|x xs] eqn:Hq.
  - destruct (abstract q) eqn:Haq.
    + apply elem_of_cons in Hin as [->|Hin]; [congruence|].
      destruct (IH Hin Hp Ha) as (p' & Hin' & ? & ? & ?).
      exists p'. rewrite elem_of_cons. auto.
    + exists q. rewrite elem_of_cons. auto.
  - apply elem_of_cons in Hin as [->|Hin]; [congruence|].
    destruct (IH Hin Hp Ha) as (p' & Hin' & ? & ? & ?).
    exists p'. rewrite elem_of_cons. auto.
Qed.

(** X9: a model that has a concrete parent without parents of its own is
    of the kind of such a parent, and that parent is of its own kind: the
    two share their records, and a primary key looked up through either
    gives the same key. *)
Theorem child_shares_kind_of_root (m p : model) :
  p ∈ parents m -> parents p = [] -> abstract p = false ->
  exists p',
    p' ∈ parents m /\ parents p' = [] /\ abstract p' = false /\
    get_datastore_kind m = db_table p' /\
    get_datastore_kind p' = db_table p' /\
    forall v f f', prep_lookup_key m v f = prep_lookup_key p' v f'.
Proof.
  intros Hin Hp Ha.
  destruct (first_root_table_parent (parents m) (db_table m) p Hin Hp Ha)
    as (p' & Hin' & Hp' & Ha' & Hk).
  assert (Hk' : get_datastore_kind p' = db_table p')
    by (unfold get_datastore_kind; by rewrite Hp').
  exists p'. repeat split; try done.
  intros v f f'. unfold prep_lookup_key. fold (get_datastore_kind m) in Hk.
  by rewrite Hk, Hk'.
Qed.

Section KindFacts.
Context `{Python}.

(** X10: a model none of whose direct parents is a concrete model without
    parents, such as the third level of a hierarchy, is stored under its
    own table, whatever its further ancestors are. *)
Theorem deeper_level_keeps_own_kind (ix : Indexing) (m : model)
    (fields : list field) (raw : bool) (i : instance)
    (ws : list warning) (e : entity) :
  no_root_parent m ->
  django_instance_to_entity ix m fields raw i = (ws, Ok e) ->
  get_datastore_kind m = db_table m /\ key_kind (e_key e) = db_table m.
Proof.
  intros Hm Hmap.
  assert (Hk : get_datastore_kind m = db_table m)
    by (by apply first_root_table_own).
  split; [done|].
  apply mapper_entity in Hmap as (_ & _ & Hkind & _). by rewrite Hkind.
Qed.
End KindFacts.

(** ** Unique keys and the cache *)

Lemma ascii_compare_trans_le (a b c : ascii) :
  Ascii.compare a b <> Gt -> Ascii.compare b c <> Gt -> Ascii.compare a c <> Gt.
Proof.
  unfold Ascii.compare. rewrite !N.compare_gt_iff. lia.
Qed.

Lemma string_compare_trans_le (a b c : string) :
  String.compare a b <> Gt -> String.compare b c <> Gt -> String.compare a c <> Gt.
Proof.
  revert b c. induction a as [|x a IH]; intros [|y b] [|z c]; cbn; try done.
  destruct (Ascii.compare x y) eqn:Hxy; try done;
    destruct (Ascii.compare y z) eqn:Hyz; try done; intros Hab Hbc.
  - apply Ascii.compare_eq_iff in Hxy as ->, Hyz as ->.
    assert (Hzz : Ascii.compare z z = Eq) by apply N.compare_refl.
    rewrite Hzz. by apply (IH b c).
  - apply Ascii.compare_eq_iff in Hxy as ->. by rewrite Hyz.
  - apply Ascii.compare_eq_iff in Hyz as <-. by rewrite Hxy.
  - assert (Hxz : Ascii.compare x z = Lt).
    { unfold Ascii.compare in *. rewrite N.compare_lt_iff in *. lia. }
    by rewrite Hxz.
Qed.

Lemma string_leb_trans (a b c : string) :
  String.leb a b = true -> String.leb b c = true -> String.leb a c = true.
Proof.
  unfold String.leb. intros Hab Hbc.
  pose proof (string_compare_trans_le a b c) as Ht.
  destruct (String.compare a b), (String.compare b c), (String.compare a c);
    try done; exfalso; by apply Ht.
Qed.

Lemma insert_by_key_comm (x y : string * value) (l : list (string * value)) :
  x.1 <> y.1 ->
  insert_by_key x (insert_by_key y l) = insert_by_key y (insert_by_key x l).
Proof.
  intros Hne.
  assert (Hxy : String.leb x.1 y.1 = negb (String.leb y.1 x.1)).
  { destruct (String.leb x.1 y.1) eqn:H1, (String.leb y.1 x.1) eqn:H2; try done.
    - exfalso. apply Hne. by apply String.leb_antisym.
    - destruct (String.leb_total x.1 y.1); congruence. }
  induction l as [|z l IH]; cbn.
  - rewrite Hxy. by destruct (String.leb y.1 x.1).
  - destruct (String.leb y.1 z.1) eqn:Hyz, (String.leb x.1 z.1) eqn:Hxz; cbn;
      rewrite ?Hyz, ?Hxz.
    + rewrite Hxy. by destruct (String.leb y.1 x.1).
    + rewrite Hxy. destruct (String.leb y.1 x.1) eqn:Hyx; cbn.
      * pose proof (String.leb_total x.1 z.1) as [?|Hzx]; [congruence|].
        destruct (String.leb x.1 y.1) eqn:Hxy'; [done|]. done.
      * assert (String.leb x.1 z.1 = true); [|congruence].
        apply (string_leb_trans _ y.1); [exact Hxy|done].
    + destruct (String.leb y.1 x.1) eqn:Hyx; [|done].
      assert (String.leb y.1 z.1 = true); [|congruence].
      by apply (string_leb_trans _ x.1).
    + by rewrite IH.
Qed.

Lemma sorted_by_key_permutation (l l' : list (string * value)) :
  Permutation l l' -> NoDup l.*1 -> sorted_by_key l = sorted_by_key l'.
Proof.
  unfold sorted_by_key. induction 1 as [|x l l' Hp IH|x y l|l l' l'' Hp IH Hp' IH'];
    intros Hnd; cbn.
  - done.
  - rewrite fmap_cons in Hnd. apply NoDup_cons in Hnd as [_ Hnd]. by rewrite IH.
  - apply insert_by_key_comm. rewrite !fmap_cons in Hnd.
    apply NoDup_cons in Hnd as [Hy _]. intros Heq. apply Hy.
    rewrite elem_of_cons. by left.
  - rewrite IH by done. apply IH'.
    assert (Hq : l.*1 ≡ₚ l'.*1) by (by apply fmap_Permutation).
    by rewrite <- Hq.
Qed.

Section KeyOrder.
Context `{Python}.

(** X11: the key of a unique combination does not depend on the order in
    which the fields of the combination are listed, as long as their names
    differ: [generate_unique_key] sorts the pairs first. *)
Theorem unique_key_order_irrelevant (m : model) (l l' : list (string * value)) :
  Permutation l l' -> NoDup l.*1 ->
  generate_unique_key m l = generate_unique_key m l'.
Proof.
  intros Hp Hnd. unfold generate_unique_key.
  by rewrite (sorted_by_key_permutation l l' Hp Hnd).
Qed.

Lemma key_part_record_value (m : model) (e : entity) (x : string) :
  key_part m e x
  = match record_value m e x with
    | Some v => Ok (x, v)
    | None => Raise (KeyError x)
    end.
Proof.
  unfold key_part, record_value. destruct (e_props e !! x) as [v|] eqn:Hx.
  - rewrite bool_decide_eq_true_2 by (by eexists). by rewrite andb_false_r.
  - rewrite bool_decide_eq_false_2 by (by intros [? ?]). rewrite andb_true_r.
    by destruct (String.eqb x (pk_column m)).
Qed.

(** X12: the key of a combination depends on the record only through the
    values of the columns of the combination, the identity of the record
    standing for a primary-key column that is not a property: two records
    that agree on them get the same key, and fail alike where a column is
    missing. *)
Theorem unique_key_depends_on_values (m : model) (e1 e2 : entity)
    (fields : list string) :
  (forall x, x ∈ fields -> record_value m e1 x = record_value m e2 x) ->
  unique_key m e1 fields = unique_key m e2 fields.
Proof.
  intros Hsame. unfold unique_key. f_equal.
  induction fields as [|x fields IH]; cbn; [done|].
  rewrite !key_part_record_value, (Hsame x) by (rewrite elem_of_cons; by left).
  rewrite IH; [done|]. intros y Hy. apply Hsame. rewrite elem_of_cons. by right.
Qed.

(** X13: after [cache_entity] has gone through, from whatever state of the
    cache, [get_entity_from_cache] finds the record under each of the keys
    it was stored under, in place of what was there before. *)
Theorem cached_record_is_found (m : model) (e : entity) (sets : list cache_op)
    (c : gmap string (entity * Z)) (o : cache_op) :
  cache_entity m e = (sets, None) ->
  o ∈ sets ->
  get_entity_from_cache (run_cache_ops sets c) (op_key o) = Some e.
Proof.
  intros Hc Ho. apply cache_entity_ok in Hc as (combos & keys & _ & _ & ->).
  apply list_elem_of_fmap in Ho as (k & -> & Hk). cbn [op_key].
  unfold get_entity_from_cache. rewrite run_sets_lookup.
  by rewrite bool_decide_eq_true_2.
Qed.
End KeyOrder.

(** ** Entity mapper: identity, properties, warnings *)

Lemma dom_foldl_assign (l : list (string * value)) (d : gmap string value) :
  dom (foldl assign d l) = list_to_set l.*1 ∪ dom d.
Proof.
  revert d. induction l as [|[k v] l IH]; intros d; cbn [foldl].
  - cbn. set_solver.
  - rewrite IH. unfold assign. cbn. rewrite dom_insert_L. set_solver.
Qed.

Section MapperIdentity.
Context `{Python}.

Lemma fields_loop_app (ix : Indexing) (m root : model) (raw : bool)
    (i : instance) (pre post : list field) (st : gmap string value * value) :
  fields_loop ix m root raw i (pre ++ post) st
  = (fields_loop ix m root raw i pre st ≫= fields_loop ix m root raw i post).
Proof.
  revert st. induction pre as [|g pre IH]; intros st; [done|].
  cbn [app fields_loop].
  destruct (value_from_instance root raw i g) as [[v b]|ex]; unbind; [|done].
  destruct st as [fv pk].
  destruct b; (destruct (add_special_indexes ix (column g) v _ _); [apply IH|done]).
Qed.

Lemma fields_loop_pk_kept (ix : Indexing) (m root : model) (raw : bool)
    (i : instance) (fs : list field) (fv0 fv : gmap string value) (pk0 pk : value) :
  (forall g, g ∈ fs -> is_root_pk root g = false) ->
  fields_loop ix m root raw i fs (fv0, pk0) = Ok (fv, pk) ->
  pk = pk0.
Proof.
  revert fv0. induction fs as [|g fs IH]; intros fv0 Hno; cbn [fields_loop].
  - by intros [= _ <-].
  - destruct (value_from_instance root raw i g) as [[v b]|ex] eqn:Hv;
      unbind; [|discriminate].
    apply value_from_instance_ok in Hv as [_ ->].
    fold (is_root_pk root g). rewrite (Hno g) by (rewrite elem_of_cons; by left).
    destruct (add_special_indexes ix (column g) v _ _) as [fv1|]; [|discriminate].
    apply IH. intros g' Hg'. apply Hno. rewrite elem_of_cons. by right.
Qed.

Lemma fields_loop_pk_last (ix : Indexing) (m root : model) (raw : bool)
    (i : instance) (pre post : list field) (f : field)
    (fv : gmap string value) (pk : value) (st : gmap string value * value) :
  is_root_pk root f = true ->
  (forall g, g ∈ post -> is_root_pk root g = false) ->
  fields_loop ix m root raw i (pre ++ f :: post) st = Ok (fv, pk) ->
  get_prepared_db_value i f raw = Ok pk.
Proof.
  intros Hf Hpost. rewrite fields_loop_app.
  destruct (fields_loop ix m root raw i pre st) as [[fv1 pk1]|]; unbind;
    [|discriminate].
  cbn [fields_loop].
  destruct (value_from_instance root raw i f) as [[v b]|ex] eqn:Hv;
    unbind; [|discriminate].
  apply value_from_instance_ok in Hv as [Hv ->].
  fold (is_root_pk root f). rewrite Hf.
  destruct (add_special_indexes ix (column f) v _ _) as [fv2|]; [|discriminate].
  intros Hrest. by apply fields_loop_pk_kept in Hrest as ->.
Qed.

(** The identity of the entity a mapping returns comes from the primary key
    the loop has found. *)
Lemma mapper_identity (ix : Indexing) (m : model) (fields : list field)
    (raw : bool) (i : instance) (ws : list warning) (e : entity) :
  django_instance_to_entity ix m fields raw i = (ws, Ok e) ->
  exists fv pk,
    fields_loop ix m (inheritance_root m) raw i (mapped_fields m fields i)
      (∅, VNone) = Ok (fv, pk) /\
    entity_kwargs pk = (ws, Ok (key_ident (e_key e))).
Proof.
  unfold django_instance_to_entity.
  destruct (fields_loop _ _ _ _ _ _ _) as [[fv pk]|ex]; [|discriminate].
  unfold make_entity.
  destruct (entity_kwargs pk) as [ws' [kw|ex]] eqn:Hkw; [|discriminate].
  intros [= <- <-]. by exists fv, pk.
Qed.

(** X14: the identity of the entity is decided by one field only: the
    last field of the walk that is a primary key of the inheritance root.
    What that field resolves to gives the id or the name, and the warning;
    the primary keys of other models in the walk are ordinary columns. *)
Theorem identity_from_last_root_key (ix : Indexing) (m : model)
    (fields : list field) (raw : bool) (i : instance)
    (ws : list warning) (e : entity) (pre post : list field) (f : field) :
  mapped_fields m fields i = pre ++ f :: post ->
  is_root_pk (inheritance_root m) f = true ->
  (forall g, g ∈ post -> is_root_pk (inheritance_root m) g = false) ->
  django_instance_to_entity ix m fields raw i = (ws, Ok e) ->
  exists pk,
    get_prepared_db_value i f raw = Ok pk /\
    entity_kwargs pk = (ws, Ok (key_ident (e_key e))).
Proof.
  intros Hfs Hf Hpost Hmap.
  apply mapper_identity in Hmap as (fv & pk & Hloop & Hkw).
  exists pk. split; [|done]. rewrite Hfs in Hloop.
  by apply (fields_loop_pk_last ix m (inheritance_root m) raw i pre post f fv pk
              (∅, VNone)).
Qed.

(** X15: when no field of the walk is a primary key of the inheritance
    root, the entity is created without an id and without a name, and
    nothing is warned of. *)
Theorem no_root_key_no_identity (ix : Indexing) (m : model)
    (fields : list field) (raw : bool) (i : instance)
    (ws : list warning) (e : entity) :
  (forall g, g ∈ mapped_fields m fields i ->
     is_root_pk (inheritance_root m) g = false) ->
  django_instance_to_entity ix m fields raw i = (ws, Ok e) ->
  ws = [] /\ key_ident (e_key e) = None.
Proof.
  intros Hno Hmap. apply mapper_identity in Hmap as (fv & pk & Hloop & Hkw).
  apply fields_loop_pk_kept in Hloop as ->; [|done].
  cbn in Hkw. by injection Hkw as <- <-.
Qed.

(** X16: the properties of an entity are the columns assigned in the walk
    and, for a model with a concrete parent, ["class"]: nothing else is
    ever stored. *)
Theorem entity_property_names (ix : Indexing) (m : model)
    (fields : list field) (raw : bool) (i : instance)
    (ws : list warning) (e : entity) :
  django_instance_to_entity ix m fields raw i = (ws, Ok e) ->
  dom (e_props e)
  = list_to_set
      (assignments ix m (inheritance_root m) raw i (mapped_fields m fields i)).*1
    ∪ (if uses_inheritance m then {["class"]} else ∅).
Proof.
  intros Hmap. apply mapper_entity in Hmap as (_ & _ & _ & ->). cbn zeta.
  destruct (uses_inheritance m).
  - rewrite dom_insert_L, dom_foldl_assign. set_solver.
  - rewrite dom_foldl_assign. set_solver.
Qed.

(** X17: the mapper warns of one thing only: whenever it returns an entity
    and has given a warning, the warning is the truncation warning, alone,
    and the entity is under a name of exactly 500 characters. *)
Theorem warning_only_with_clamped_name (ix : Indexing) (m : model)
    (fields : list field) (raw : bool) (i : instance)
    (ws : list warning) (e : entity) :
  django_instance_to_entity ix m fields raw i = (ws, Ok e) ->
  ws <> [] ->
  ws = [truncation_warning] /\
  exists s, key_ident (e_key e) = Some (Name s) /\ pystr_len s = 500.
Proof.
  unfold django_instance_to_entity.
  destruct (fields_loop _ _ _ _ _ _ _) as [[fv pk]|ex]; [|by intros [= <-]].
  unfold make_entity, entity_kwargs.
  destruct (truthy pk); [|by intros [= <- _]].
  destruct (as_int pk); [by intros [= <- _]|].
  destruct (as_basestring pk) as [s|]; [|by intros [= <-]].
  destruct (Z.leb_spec 500 (pystr_len s)); [|by intros [= <- _]].
  intros [= <- <-] _. split; [done|]. eexists. split; [reflexivity|].
  rewrite pystr_take_len. lia.
Qed.

(** X18: the [IntegrityError] names the first field of the walk that may
    not be null, is no primary key and resolves to [None]: the fields
    before it have been resolved, those after it are not looked at. *)
Theorem first_null_field_is_reported (ix : Indexing) (m : model)
    (fields : list field) (raw : bool) (i : instance)
    (pre post : list field) (f : field) (st : gmap string value * value) :
  mapped_fields m fields i = pre ++ f :: post ->
  fields_loop ix m (inheritance_root m) raw i pre (∅, VNone) = Ok st ->
  null f = false -> primary_key f = false ->
  get_prepared_db_value i f raw = Ok VNone ->
  django_instance_to_entity ix m fields raw i
  = ([], Raise (IntegrityError (f_name f))).
Proof.
  intros Hfs Hpre Hn Hp Hv. unfold django_instance_to_entity.
  rewrite Hfs, fields_loop_app, Hpre. unbind. cbn [fields_loop].
  rewrite (value_from_instance_null _ raw i f Hn Hp Hv). by unbind.
Qed.
End MapperIdentity.

(** ** Cursor: rows *)

Section CursorRows.
Context `{Python}.

Lemma build_row_shape (st : Settings) (sc : SelectCommand) (e : entity)
    (cols : list string) (ids ids' : list key) (vs vs' : list value) :
  build_row st sc e cols ids vs = (ids', Ok vs') ->
  length vs' = (length vs + length cols)%nat /\
  ids' = ids ++ repeat (e_key e) (key_columns cols).
Proof.
  revert ids vs. induction cols as [|col cols IH]; intros ids vs; cbn [build_row].
  - intros [= <- <-]. cbn. rewrite app_nil_r. split; [lia|done].
  - unfold key_columns. rewrite filter_cons.
    destruct (String.eqb_spec col "__key__") as [->|Hne].
    + rewrite decide_True by done. intros Hrow. apply IH in Hrow as [Hlen ->].
      rewrite length_app in Hlen. cbn in *. split; [lia|].
      by rewrite <- app_assoc.
    + rewrite decide_False by done.
      destruct (convert_values st _ _) as [v|]; [|discriminate].
      intros Hrow. apply IH in Hrow as [Hlen ->].
      rewrite length_app in Hlen. cbn in *. split; [lia|done].
Qed.

(** What [fetchone] does with the record that [next_result] hands it. *)
Lemma fetchone_record (st : Settings) (c c' : Cursor) (sc sc' : SelectCommand)
    (e : entity) (r : option row) :
  last_select_command c = Some sc ->
  (forall n, sc_results sc <> ResCount n) ->
  next_result sc = Ok (Some e, sc') ->
  fetchone st c = (c', Ok r) ->
  exists vs,
    r = Some (RowList vs) /\
    length vs = length (queried_fields sc') /\
    returned_ids c'
    = returned_ids c ++ repeat (e_key e) (key_columns (queried_fields sc')).
Proof.
  intros Hc Hagg Hnext. unfold fetchone. rewrite Hc.
  destruct (sc_results sc) as [|n|pending] eqn:Hr; [|by destruct (Hagg n)|];
    rewrite Hnext;
    (destruct (build_row st sc' e (queried_fields sc') (returned_ids c) [])
       as [ids [vs|ex]] eqn:Hrow; unbind; [|discriminate]);
    intros [= <- <-]; apply build_row_shape in Hrow as [Hlen ->];
    exists vs; by repeat split.
Qed.

(** X19: a row that [fetchone] builds from a record has one value for each
    queried column, and the key of the record is added to [returned_ids]
    once for each time ["__key__"] is among the columns. *)
Theorem fetched_row_shape (st : Settings) (c c' : Cursor) (sc sc' : SelectCommand)
    (e : entity) (r : option row) :
  last_select_command c = Some sc ->
  (forall n, sc_results sc <> ResCount n) ->
  next_result sc = Ok (Some e, sc') ->
  fetchone st c = (c', Ok r) ->
  exists vs,
    r = Some (RowList vs) /\
    length vs = length (queried_fields sc') /\
    returned_ids c'
    = returned_ids c ++ repeat (e_key e) (key_columns (queried_fields sc')).
Proof. apply fetchone_record. Qed.

(** X20: [lastrowid] is the identity of the last key the cursor has
    recorded, so that after a row with the column ["__key__"] has been
    fetched it is the identity of that row, whatever was inserted before. *)
Theorem lastrowid_after_fetch (st : Settings) (c c' : Cursor) (sc sc' : SelectCommand)
    (e : entity) (r : option row) :
  last_select_command c = Some sc ->
  (forall n, sc_results sc <> ResCount n) ->
  next_result sc = Ok (Some e, sc') ->
  fetchone st c = (c', Ok r) ->
  "__key__" ∈ queried_fields sc' ->
  lastrowid c' = Some (id_or_name_value (e_key e)).
Proof.
  intros Hc Hagg Hnext Hfetch Hkey.
  destruct (fetchone_record st c c' sc sc' e r Hc Hagg Hnext Hfetch)
    as (vs & _ & _ & Hids).
  unfold lastrowid. rewrite Hids.
  assert (Hpos : exists k, key_columns (queried_fields sc') = S k).
  { unfold key_columns.
    destruct (filter _ (queried_fields sc')) as [|x l] eqn:Hf; [|by eexists].
    exfalso. assert (Hin : "__key__" ∈ filter (fun col : string => col = "__key__")
                                        (queried_fields sc'))
      by (by apply list_elem_of_filter).
    rewrite Hf in Hin. by apply elem_of_nil in Hin. }
  destruct Hpos as [k ->].
  replace (repeat (e_key e) (S k)) with (repeat (e_key e) k ++ [e_key e])
    by (by rewrite <- repeat_cons).
  by rewrite app_assoc, last_snoc.
Qed.

Lemma fetchmany_loop_bound (st : Settings) (n : nat) (c c' : Cursor)
    (rows rows' : list row) :
  fetchmany_loop st n c rows = (c', Ok rows') ->
  (length rows' <= length rows + n)%nat.
Proof.
  revert c rows. induction n as [|n IH]; intros c rows; cbn [fetchmany_loop].
  - intros [= _ <-]. lia.
  - destruct (fetchone st c) as [c1 [[r|]|ex]]; [| |discriminate].
    + intros Hrest. apply IH in Hrest. rewrite length_app in Hrest. cbn in Hrest. lia.
    + intros [= _ <-]. lia.
Qed.

(** X21: [fetchmany(size)] never returns more than [size] rows, and none
    for a size that is not positive. *)
Theorem fetchmany_at_most_size (st : Settings) (c c' : Cursor) (size : Z)
    (rows : list row) :
  fetchmany st c size = (c', Ok rows) ->
  Z.of_nat (length rows) <= Z.max 0 size.
Proof.
  unfold fetchmany. destruct (last_select_command c) as [sc|]; [|discriminate].
  destruct (results_falsy (sc_results sc)).
  - intros [= _ <-]. cbn. lia.
  - intros Hloop. apply fetchmany_loop_bound in Hloop. cbn in Hloop. lia.
Qed.
End CursorRows.

(** * The properties on the examples *)

#[local] Existing Instance example_python.

Ltac in_list :=
  apply list_elem_of_In; vm_compute;
  repeat (first [left; reflexivity | right]).

(** ** Value codec *)



(** ** Entity mapper *)


(** The field that the [IntegrityError] of a [Base] without a title names. *)
Lemma base_without_title :
  django_instance_to_entity no_indexing Base (meta_fields Base) false
    (base_instance (VInt 1) VNone)
  = ([], Raise (IntegrityError "title")).
Proof. vm_compute. reflexivity. Qed.


Lemma falsy_primary_key_witness :
  let i := base_instance (VInt 0) (VUnicode Hi) in
  django_instance_to_entity no_indexing Base (meta_fields Base) false i
  = make_entity Base {["title" := VUnicode Hi]} VNone /\
  exists props,
    django_instance_to_entity no_indexing Base (meta_fields Base) false i
    = ([], Ok (Entity (Key (get_datastore_kind Base) None) props)).
Proof.
  apply (falsy_primary_key_is_absent no_indexing Base (meta_fields Base) false
           (base_instance (VInt 0) (VUnicode Hi)) {["title" := VUnicode Hi]} (VInt 0)).
  - vm_compute. reflexivity.
  - left. reflexivity.
Defined.



Lemma special_index_witness :
  e_props indexed_base_entity !! "_idx_iexact_title" = Some (VUnicode hi) /\
  e_props indexed_base_entity !! "title" = Some (VUnicode Hi).
Proof.
  set (i := base_instance (VInt 1) (VUnicode Hi)).
  assert (H1 : django_instance_to_entity iexact_indexing Base (meta_fields Base)
                 false i = ([], Ok indexed_base_entity))
    by (vm_compute; reflexivity).
  assert (H2 : title_field ∈ mapped_fields Base (meta_fields Base) i) by in_list.
  assert (H3 : get_prepared_db_value i title_field false = Ok (VUnicode Hi))
    by reflexivity.
  assert (H4 : "iexact" ∈ special_indexes_for_column iexact_indexing Base
                 (column title_field)) by in_list.
  assert (H5 : REQUIRES_SPECIAL_INDEXES iexact_indexing !! "iexact"
               = Some iexact_indexer) by reflexivity.
  destruct (special_index_columns_attached iexact_indexing Base (meta_fields Base)
              false i [] indexed_base_entity title_field (VUnicode Hi) "iexact"
              iexact_indexer H1 H2 H3 H4 H5) as [Hindex Hcolumn].
  split.
  - apply Hindex. split; [|discriminate].
    intros x' Hin. apply list_elem_of_In in Hin. vm_compute in Hin.
    destruct Hin as [Heq|[Heq|[]]];
      first [discriminate Heq | by inversion Heq].
  - apply Hcolumn; [reflexivity|]. split; [|discriminate].
    intros x' Hin. apply list_elem_of_In in Hin. vm_compute in Hin.
    destruct Hin as [Heq|[Heq|[]]];
      first [discriminate Heq | by inversion Heq].
Defined.

(** C7, as stated, fails: for the primary key of the root the derived
    column is attached and the column itself is not there. *)
Lemma indexed_primary_key_has_no_column :
  special_indexes_for_column iexact_indexing Page (column slug_field) = ["iexact"] /\
  exists e,
    django_instance_to_entity iexact_indexing Page (meta_fields Page) false
      (page_instance (VUnicode Hi) (VUnicode [])) = ([], Ok e) /\
    key_ident (e_key e) = Some (Name (PUni Hi)) /\
    e_props e !! "_idx_iexact_slug" = Some (VUnicode hi) /\
    e_props e !! column slug_field = None.
Proof.
  split; [reflexivity|]. eexists. split; [vm_compute; reflexivity|].
  repeat split.
Qed.

(** ** Unique-constraint cache *)

Lemma account_uniques :
  get_uniques_from_model Account = Ok [["owner"; "email"]; ["id"]; ["email"]].
Proof. reflexivity. Qed.

Lemma account_unique_together_resolves : unique_together_resolves Account.
Proof.
  intros names y Hn Hy. apply list_elem_of_In in Hn. cbn in Hn.
  destruct Hn as [<-|[]]. apply list_elem_of_In in Hy. cbn in Hy.
  destruct Hy as [<-|[<-|[]]]; reflexivity.
Qed.

Lemma account_columns_present : unique_columns_present Account account_entity.
Proof.
  intros cols x Hd Hx.
  apply (get_uniques_declared Account _ account_uniques) in Hd.
  apply list_elem_of_In in Hd. cbn in Hd.
  destruct Hd as [<-|[<-|[<-|[]]]]; apply list_elem_of_In in Hx; cbn in Hx;
    repeat (destruct Hx as [<-|Hx]); try (by destruct Hx);
    first [right; reflexivity | left; eexists; vm_compute; reflexivity].
Qed.

Lemma unique_cache_keys_witness :
  exists ops,
    cache_entity Account account_entity = (ops, None) /\
    length ops
    = (length (unique_together Account)
       + length (filter (fun f => unique f = true) (meta_fields Account)))%nat /\
    (forall cols, declared_unique Account cols ->
       exists op, op ∈ ops /\ unique_entry Account account_entity cols op) /\
    (forall op, op ∈ ops ->
       exists cols, declared_unique Account cols /\
                    unique_entry Account account_entity cols op).
Proof.
  apply (unique_cache_keys Account account_entity).
  - exact account_unique_together_resolves.
  - exact account_columns_present.
Defined.

Lemma account_cache_keys :
  cache_entity Account account_entity
  = (map (fun key => CacheSet key account_entity 10)
       ["bank.bank_account|email:a@x.com|owner:3"; "bank.bank_account|id:5";
        "bank.bank_account|email:a@x.com"], None).
Proof. vm_compute. reflexivity. Qed.

(** C4, as stated, fails: [Member] declares the unique combination of its
    primary key alone, the key of that combination for the record is
    [club.club_member|id:9], with the identity of the record for the
    missing column, and yet nothing is stored under it: the other unique
    column is not a property of the record, and [cache_entity] raises
    before its first [cache.set]. *)
Lemma member_key_is_not_stored :
  declared_unique Member ["id"] /\
  unique_key Member old_member ["id"] = Ok "club.club_member|id:9" /\
  cache_entity Member old_member = ([], Some (KeyError "email")).
Proof.
  split; [|split; vm_compute; reflexivity].
  apply (declared_field Member (plain_field "Member" "AutoField" "id" false true true));
    [in_list|reflexivity].
Qed.

Lemma uncache_deletes_witness :
  exists keys,
    cache_entity Account account_entity
    = (map (fun key => CacheSet key account_entity 10) keys, None) /\
    uncache_entity Account account_entity = (map CacheDelete keys, None) /\
    (forall k, k ∈ keys <->
       exists cols, declared_unique Account cols /\
                    unique_key Account account_entity cols = Ok k) /\
    forall (c : gmap string (entity * Z)) (k : string),
      run_cache_ops (map CacheDelete keys)
        (run_cache_ops (map (fun key => CacheSet key account_entity 10) keys) c) !! k
      = if bool_decide (k ∈ keys) then None else c !! k.
Proof.
  apply (uncache_deletes_cached_keys Account account_entity).
  - exact account_unique_together_resolves.
  - exact account_columns_present.
Defined.

(** C5, as stated, fails: where a unique column is missing from the record
    both calls raise [KeyError], [cache_entity] before it stores anything
    and [uncache_entity] after it has deleted the keys that come first, so
    that a key is deleted under which the record is not stored. *)
Lemma uncache_before_missing_column :
  cache_entity Member old_member = ([], Some (KeyError "email")) /\
  uncache_entity Member old_member
  = ([CacheDelete "club.club_member|id:9"], Some (KeyError "email")) /\
  map op_key (fst (uncache_entity Member old_member))
  <> map op_key (fst (cache_entity Member old_member)).
Proof. split; [|split]; vm_compute; (reflexivity || discriminate). Qed.

(** ** Cursor *)

Lemma aggregate_row_witness :
  fetchone tz_off (count_cursor 3) = (count_cursor 3, Ok (Some (RowTuple [VInt 3]))) /\
  (3 <> 0 -> forall size : Z,
     fetchmany tz_off (count_cursor 3) size
     = (count_cursor 3, Ok (repeat (RowTuple [VInt 3]) (Z.to_nat size)))).
Proof.
  apply (aggregate_row_never_exhausted tz_off (count_cursor 3) (count_select 3) 3);
    reflexivity.
Defined.

(** ** Further properties on the examples *)

Lemma time_from_integer_witness :
  as_int_or_long (VLong 3600000000) = Some 3600000000 /\
  is_ok (value_from_db_time tz_on (VLong 3600000000)) = false.
Proof.
  split; [reflexivity|].
  apply (time_from_integer_fails tz_on (VLong 3600000000) 3600000000). reflexivity.
Defined.

Lemma value_for_db_idempotent_witness :
  value_for_db (VDate (Date 735000)) date_field
  = Ok (VDatetime (Datetime 735000 0 None)) /\
  value_for_db (VDatetime (Datetime 735000 0 None)) date_field
  = Ok (VDatetime (Datetime 735000 0 None)).
Proof.
  split; [reflexivity|].
  apply (value_for_db_idempotent date_field "date" (VDate (Date 735000)));
    first [reflexivity | discriminate].
Defined.

Lemma datetime_in_date_field_witness :
  let dt := Datetime 735000 72000000000 (Some 7200000000) in
  value_for_db (VDatetime dt) date_field
  = Ok (VDatetime (Datetime 735000 0 None)) /\
  convert_values tz_on (VDatetime (Datetime 735000 0 None)) (Some date_field)
  = Ok (VDate (Date 735000)).
Proof.
  apply (datetime_in_date_field tz_on date_field
           (Datetime 735000 72000000000 (Some 7200000000))); reflexivity.
Defined.

Lemma decimal_lookup_witness :
  prep_lookup_value Base (VDecimal (Dec false 15 (-1))) price_field
  = ([], value_for_db (VDecimal (Dec false 15 (-1))) price_field).
Proof.
  apply (decimal_lookup_is_written_form Base price_field); reflexivity.
Defined.

Lemma lookup_key_witness :
  snd (prep_lookup_key Page (VUnicode x600) slug_field)
  = Ok (Key "cms_page" (Some (Name (PUni x500)))).
Proof.
  apply (lookup_key_is_entity_key no_indexing Page (meta_fields Page) false
           (page_instance (VUnicode x600) (VUnicode []))
           {["body" := VText []]} (VUnicode x600) [truncation_warning]
           (Entity (Key "cms_page" (Some (Name (PUni x500)))) {["body" := VText []]})
           slug_field).
  - vm_compute. reflexivity.
  - vm_compute. reflexivity.
  - by eexists.
Defined.

Lemma string_key_identity_witness :
  entity_kwargs (VUnicode x500)
  = (if 500 <=? pystr_len (PUni x500) then [truncation_warning] else [],
     Ok (Some (Name (pystr_take 500 (PUni x500))))) /\
  (pystr_len (PUni x500) <= 500 -> pystr_take 500 (PUni x500) = PUni x500) /\
  pystr_len (pystr_take 500 (PUni x500)) = Z.min 500 (pystr_len (PUni x500)).
Proof.
  apply (string_key_identity (VUnicode x500) (PUni x500)); reflexivity.
Defined.

(** At exactly 500 characters the warning is given and the name is whole. *)
Lemma key_of_500_characters :
  entity_kwargs (VUnicode x500) = ([truncation_warning], Ok (Some (Name (PUni x500)))).
Proof. vm_compute. reflexivity. Qed.

Lemma long_key_witness :
  make_entity Base ∅ (VLong 5) = ([], Raise ValueError) /\
  prep_lookup_key Base (VLong 5) title_field
  = ([], Ok (Key (get_datastore_kind Base) (Some (Id 5)))).
Proof. apply (long_key_write_and_lookup Base title_field ∅ 5). discriminate. Defined.

Lemma child_shares_kind_witness :
  exists p',
    p' ∈ parents Child /\ parents p' = [] /\ abstract p' = false /\
    get_datastore_kind Child = db_table p' /\
    get_datastore_kind p' = db_table p' /\
    forall v f f', prep_lookup_key Child v f = prep_lookup_key p' v f'.
Proof.
  apply (child_shares_kind_of_root Child Base); [in_list|reflexivity|reflexivity].
Defined.

Lemma deeper_level_witness :
  get_datastore_kind Grandchild = db_table Grandchild /\
  key_kind (e_key grandchild_entity) = db_table Grandchild.
Proof.
  apply (deeper_level_keeps_own_kind no_indexing Grandchild (meta_fields Grandchild)
           false grandchild_instance [] grandchild_entity).
  - intros p Hp. apply list_elem_of_singleton in Hp as ->. left. discriminate.
  - vm_compute. reflexivity.
Defined.

Lemma unique_key_order_witness :
  generate_unique_key Account [("owner", VInt 3); ("email", VStr "a@x.com")]
  = generate_unique_key Account [("email", VStr "a@x.com"); ("owner", VInt 3)].
Proof.
  apply (unique_key_order_irrelevant Account).
  - apply perm_swap.
  - apply NoDup_cons. split; [|apply NoDup_singleton].
    intros Hin. apply list_elem_of_singleton in Hin. discriminate Hin.
Defined.

Lemma unique_key_values_witness :
  unique_key Account account_entity ["owner"; "email"]
  = unique_key Account account_twin ["owner"; "email"].
Proof.
  apply (unique_key_depends_on_values Account account_entity account_twin).
  intros x Hx. apply list_elem_of_In in Hx.
  destruct Hx as [<-|[<-|[]]]; reflexivity.
Defined.

Lemma cached_record_witness :
  get_entity_from_cache
    (run_cache_ops (fst (cache_entity Account account_entity))
       {["bank.bank_account|id:5" := (account_twin, 10)]})
    (op_key (CacheSet "bank.bank_account|id:5" account_entity 10))
  = Some account_entity.
Proof.
  apply (cached_record_is_found Account account_entity
           (fst (cache_entity Account account_entity))).
  - vm_compute. reflexivity.
  - in_list.
Defined.

Lemma identity_from_root_key_witness :
  exists pk,
    get_prepared_db_value child_instance
      (plain_field "Base" "AutoField" "id" false true true) false = Ok pk /\
    entity_kwargs pk = ([], Ok (key_ident (e_key child_entity))).
Proof.
  apply (identity_from_last_root_key no_indexing Child (meta_fields Child) false
           child_instance [] child_entity
           (meta_fields Child) [title_field]
           (plain_field "Base" "AutoField" "id" false true true)).
  - reflexivity.
  - reflexivity.
  - intros g Hg. apply list_elem_of_singleton in Hg as ->. reflexivity.
  - vm_compute. reflexivity.
Defined.

Lemma no_root_key_witness :
  ([] : list warning) = [] /\
  key_ident (e_key (Entity (Key "shop_base" None) {["title" := VUnicode Hi]})) = None.
Proof.
  apply (no_root_key_no_identity no_indexing Base [title_field] false
           (base_instance (VInt 3) (VUnicode Hi)) []
           (Entity (Key "shop_base" None) {["title" := VUnicode Hi]})).
  - intros g Hg. apply list_elem_of_singleton in Hg as ->. reflexivity.
  - vm_compute. reflexivity.
Defined.

Lemma entity_property_names_witness :
  dom (e_props child_entity)
  = list_to_set
      (assignments no_indexing Child (inheritance_root Child) false child_instance
         (mapped_fields Child (meta_fields Child) child_instance)).*1
    ∪ (if uses_inheritance Child then {["class"]} else ∅).
Proof.
  apply (entity_property_names no_indexing Child (meta_fields Child) false
           child_instance []).
  vm_compute. reflexivity.
Defined.

Lemma warning_witness :
  [truncation_warning] = [truncation_warning] /\
  exists s,
    key_ident (e_key (Entity (Key "cms_page" (Some (Name (PUni x500))))
                        {["body" := VText []]}))
    = Some (Name s) /\
    pystr_len s = 500.
Proof.
  apply (warning_only_with_clamped_name no_indexing Page (meta_fields Page) false
           (page_instance (VUnicode x600) (VUnicode []))).
  - vm_compute. reflexivity.
  - discriminate.
Defined.

Lemma first_null_field_witness :
  django_instance_to_entity no_indexing Base (meta_fields Base) false
    (base_instance (VInt 1) VNone)
  = ([], Raise (IntegrityError (f_name title_field))).
Proof.
  apply (first_null_field_is_reported no_indexing Base (meta_fields Base) false
           (base_instance (VInt 1) VNone)
           [plain_field "Base" "AutoField" "id" false true true] [] title_field
           (∅, VInt 1)); reflexivity.
Defined.

Lemma fetched_row_witness :
  exists vs,
    Some (RowList [VInt 7; VUnicode Hi]) = Some (RowList vs) /\
    length vs = length (queried_fields (row_select [])) /\
    returned_ids (row_cursor [base_key] [])
    = returned_ids (row_cursor [] [base_record])
      ++ repeat (e_key base_record) (key_columns (queried_fields (row_select []))).
Proof.
  apply (fetched_row_shape tz_off (row_cursor [] [base_record])
           (row_cursor [base_key] []) (row_select [base_record]) (row_select [])
           base_record).
  - reflexivity.
  - discriminate.
  - reflexivity.
  - vm_compute. reflexivity.
Defined.

Lemma lastrowid_witness :
  lastrowid (row_cursor [Key "shop_base" (Some (Id 1)); base_key] [])
  = Some (id_or_name_value (e_key base_record)).
Proof.
  apply (lastrowid_after_fetch tz_off
           (row_cursor [Key "shop_base" (Some (Id 1))] [base_record])
           (row_cursor [Key "shop_base" (Some (Id 1)); base_key] [])
           (row_select [base_record]) (row_select []) base_record
           (Some (RowList [VInt 7; VUnicode Hi]))).
  - reflexivity.
  - discriminate.
  - reflexivity.
  - vm_compute. reflexivity.
  - in_list.
Defined.

Lemma fetchmany_witness :
  Z.of_nat (length [RowList [VInt 7; VUnicode Hi]; RowList [VInt 7; VUnicode Hi]])
  <= Z.max 0 2.
Proof.
  apply (fetchmany_at_most_size tz_off
           (row_cursor [] [base_record; base_record; base_record])
           (row_cursor [base_key; base_key] [base_record]) 2).
  vm_compute. reflexivity.
Defined.
